(** * smart-crawler: the declarative extraction engine of [src/scraper.py]

    A shallow embedding of [WebScraper] (configuration validation, the path
    interpreter of [_extract_field_value], the container scan of
    [_extract_products] and the provenance pass of [scrape_products]),
    followed by the properties of the specification that concern it.

    The configuration is the output of [json.load], so every value met under
    [Dict[str, Any]] is modelled dynamically, with the exceptions Python
    raises on ill-typed values.  The HTML library (BeautifulSoup), the URL
    library ([urllib.parse.urljoin]) and the HTTP session are outside the
    repository: the engine is stated over an interface for them, and a small
    concrete instance is given further down to run examples. *)

From Stdlib Require Import List String Ascii ZArith QArith Bool Lia.
From Stdlib Require Import DecimalString.
Import ListNotations.
Set Warnings "-register-all".
Close Scope Q_scope.
Open Scope string_scope.
Open Scope list_scope.

(* ------------------------------------------------------------------------- *)
(** ** Python values *)

(** A Python [float]; the finite ones carry their exact rational value, which
    is how Python compares an [int] with a [float]. *)
Inductive pyfloat : Type :=
| FNan
| FInf (negative : bool)
| FFin (q : Q).

(** The values [json.load] produces, which are also the values a record
    holds: [None], [bool], [int], [float], [str], [list], [dict] (insertion
    ordered, string keys). *)
Inductive pyval : Type :=
| PNone
| PBool (b : bool)
| PInt (z : Z)
| PFloat (f : pyfloat)
| PStr (s : string)
| PList (l : list pyval)
| PDict (d : list (string * pyval)).

(** The sentinel of an unresolved field. *)
Definition NA : pyval := PStr "N/A".

(** [type(v).__name__], used in the messages of the built-in exceptions. *)
Definition type_name (v : pyval) : string :=
  match v with
  | PNone => "NoneType"
  | PBool _ => "bool"
  | PInt _ => "int"
  | PFloat _ => "float"
  | PStr _ => "str"
  | PList _ => "list"
  | PDict _ => "dict"
  end.

(** [bool(v)]. *)
Definition truthy (v : pyval) : bool :=
  match v with
  | PNone => false
  | PBool b => b
  | PInt z => negb (Z.eqb z 0)
  | PFloat FNan => true
  | PFloat (FInf _) => true
  | PFloat (FFin q) => negb (Qeq_bool q (inject_Z 0))
  | PStr s => negb (String.eqb s "")
  | PList l => match l with [] => false | _ :: _ => true end
  | PDict d => match d with [] => false | _ :: _ => true end
  end.

(** [v == s] for a string literal [s]: only a [str] equals a [str]. *)
Definition py_eq_str (v : pyval) (s : string) : bool :=
  match v with
  | PStr t => String.eqb t s
  | _ => false
  end.

(* ------------------------------------------------------------------------- *)
(** ** Exceptions *)

(** The classes of exception the engine meets.  All of them derive from
    [Exception]; [LibraryError] stands for any other [Exception] subclass an
    external library raises. *)
Inductive exn_class : Type :=
| ValueError
| TypeError
| AttributeError
| IndexError
| KeyError
| RequestException
| LibraryError (name : string)
| PlainException.

Record exn : Type := mkExn { exn_cls : exn_class; exn_msg : string }.

Inductive result (A : Type) : Type :=
| Ok (a : A)
| Raise (e : exn).
Arguments Ok {A} a.
Arguments Raise {A} e.

Definition rbind {A B} (r : result A) (k : A -> result B) : result B :=
  match r with
  | Ok a => k a
  | Raise e => Raise e
  end.

Declare Scope result_scope.
Delimit Scope result_scope with res.
Notation "x <- r ;; k" := (rbind r (fun x => k))
  (at level 61, r at next level, right associativity) : result_scope.

(* ------------------------------------------------------------------------- *)
(** ** Dictionaries with insertion order *)

Definition dict (V : Type) : Type := list (string * V).

Fixpoint dict_get {V} (d : dict V) (k : string) : option V :=
  match d with
  | [] => None
  | (k', v) :: rest => if String.eqb k' k then Some v else dict_get rest k
  end.

(** [k in d]. *)
Definition dict_mem {V} (d : dict V) (k : string) : bool :=
  match dict_get d k with
  | Some _ => true
  | None => false
  end.

(** [d[k] = v]: an existing key keeps its place, a new one goes last. *)
Fixpoint dict_set {V} (d : dict V) (k : string) (v : V) : dict V :=
  match d with
  | [] => [(k, v)]
  | (k', v') :: rest =>
      if String.eqb k' k then (k', v) :: rest else (k', v') :: dict_set rest k v
  end.

(** [d[k]]. *)
Definition dict_getitem {V} (d : dict V) (k : string) : result V :=
  match dict_get d k with
  | Some v => Ok v
  | None => Raise (mkExn KeyError ("'" ++ k ++ "'"))
  end.

Definition dict_keys {V} (d : dict V) : list string := map fst d.
Definition dict_values {V} (d : dict V) : list V := map snd d.

(* ------------------------------------------------------------------------- *)
(** ** The operations of Python the engine applies to configuration values *)

(** [v.get(k, default)]: only a [dict] has [get]. *)
Definition py_get (v : pyval) (k : string) (default : pyval) : result pyval :=
  match v with
  | PDict d =>
      match dict_get d k with
      | Some x => Ok x
      | None => Ok default
      end
  | _ => Raise (mkExn AttributeError
                  ("'" ++ type_name v ++ "' object has no attribute 'get'"))
  end.

(** [v.items()]. *)
Definition py_items (v : pyval) : result (list (string * pyval)) :=
  match v with
  | PDict d => Ok d
  | _ => Raise (mkExn AttributeError
                  ("'" ++ type_name v ++ "' object has no attribute 'items'"))
  end.

Fixpoint chars (s : string) : list pyval :=
  match s with
  | EmptyString => []
  | String c rest => PStr (String c EmptyString) :: chars rest
  end.

(** The values [for step in v] goes through: the items of a list, the
    characters of a string, the keys of a dict. *)
Definition py_iter (v : pyval) : result (list pyval) :=
  match v with
  | PList l => Ok l
  | PStr s => Ok (chars s)
  | PDict d => Ok (map (fun kv => PStr (fst kv)) d)
  | _ => Raise (mkExn TypeError
                  ("'" ++ type_name v ++ "' object is not iterable"))
  end.

(** [n > index] for an [int] [n] (here always a [len]). *)
Definition py_int_gt (n : nat) (index : pyval) : result bool :=
  match index with
  | PInt i => Ok (Z.ltb i (Z.of_nat n))
  | PBool b => Ok (Z.ltb (if b then 1 else 0) (Z.of_nat n))
  | PFloat FNan => Ok false
  | PFloat (FInf negative) => Ok negative
  | PFloat (FFin q) => Ok (negb (Qle_bool (inject_Z (Z.of_nat n)) q))
  | _ => Raise (mkExn TypeError
                  ("'>' not supported between instances of 'int' and '"
                     ++ type_name index ++ "'"))
  end.

(** [l[i]] for an integer [i]: a negative [i] counts from the end. *)
Definition list_index_Z {A} (l : list A) (i : Z) : result A :=
  let j := if Z.ltb i 0 then (Z.of_nat (List.length l) + i)%Z else i in
  if Z.ltb j 0 then Raise (mkExn IndexError "list index out of range")
  else match nth_error l (Z.to_nat j) with
       | Some x => Ok x
       | None => Raise (mkExn IndexError "list index out of range")
       end.

(** [l[index]]. *)
Definition py_list_index {A} (l : list A) (index : pyval) : result A :=
  match index with
  | PInt i => list_index_Z l i
  | PBool b => list_index_Z l (if b then 1 else 0)%Z
  | _ => Raise (mkExn TypeError
                  ("list indices must be integers or slices, not "
                     ++ type_name index))
  end.

(* ------------------------------------------------------------------------- *)
(** ** The external libraries, as interfaces *)

(** The two queries and two accessors the engine uses of BeautifulSoup.  The
    class filter is [None] when the call passes no [class_] keyword.  Each
    call may raise.  A [Tag] is always truthy ([Tag.__bool__] returns [True]),
    so [not element] holds exactly of [None]. *)
Class DocumentModel : Type := {
  Element : Type;
  (** [element.find(tag)] / [element.find(tag, class_=c)] *)
  find : Element -> pyval -> option pyval -> result (option Element);
  (** [element.find_all(tag)] / [element.find_all(tag, class_=c)] *)
  find_all : Element -> pyval -> option pyval -> result (list Element);
  (** [element.get_text(strip=True)] *)
  get_text : Element -> result string;
  (** [element.get(key)]: [None] when the attribute is absent *)
  get : Element -> pyval -> result pyval
}.

(** [urllib.parse.urljoin(base, url)]. *)
Class UrlLibrary : Type := {
  urljoin : string -> pyval -> result pyval
}.

(* ------------------------------------------------------------------------- *)
(** ** Effects: standard output and the wall clock *)

Record world : Type := mkWorld {
  stdout : list string;      (* the lines printed so far *)
  clock : nat -> string;     (* the n-th reading of time.strftime *)
  ticks : nat                (* readings taken so far *)
}.

Definition M (A : Type) : Type := world -> result A * world.

Definition ret {A} (a : A) : M A := fun w => (Ok a, w).

Definition bind {A B} (m : M A) (k : A -> M B) : M B :=
  fun w =>
    match m w with
    | (Ok a, w') => k a w'
    | (Raise e, w') => (Raise e, w')
    end.

Definition lift {A} (r : result A) : M A := fun w => (r, w).

(** [try: body except Exception as e: handler(e)]. *)
Definition try_except {A} (body : M A) (handler : exn -> M A) : M A :=
  fun w =>
    match body w with
    | (Ok a, w') => (Ok a, w')
    | (Raise e, w') => handler e w'
    end.

Definition print (line : string) : M unit :=
  fun w => (Ok tt, mkWorld (stdout w ++ [line]) (clock w) (ticks w)).

(** [time.strftime("%Y-%m-%d %H:%M:%S")]. *)
Definition strftime : M string :=
  fun w => (Ok (clock w (ticks w)), mkWorld (stdout w) (clock w) (S (ticks w))).

Declare Scope io_scope.
Delimit Scope io_scope with io.
Notation "x <- m ;; k" := (bind m (fun x => k))
  (at level 61, m at next level, right associativity) : io_scope.
Notation "m ;;; k" := (bind m (fun _ => k))
  (at level 61, right associativity) : io_scope.

(* ------------------------------------------------------------------------- *)
(** ** class WebScraper *)

Module WebScraper.

(** The attribute of the object the engine reads: [self.config].  ([delay]
    and the HTTP session only pace and perform the request.) *)
Record t : Type := mk { config : dict pyval }.

Fixpoint required_keys_loop (required_keys : list string) (config : dict pyval)
  : result unit :=
  match required_keys with
  | [] => Ok tt
  | key :: rest =>
      if negb (dict_mem config key)
      then Raise (mkExn ValueError
                    ("Clave requerida '" ++ key
                       ++ "' no encontrada en la configuración del scraper"))
      else required_keys_loop rest config
  end.

Definition _validate_config (config : dict pyval) : result (dict pyval) :=
  (_ <- required_keys_loop ["container_class"; "fields"] config ;;
   Ok config)%res.

Definition __init__ (config : dict pyval) : result t :=
  (config <- _validate_config config ;;
   Ok (mk config))%res.

Section Engine.
Context {DM : DocumentModel} {UL : UrlLibrary}.

(** The body of the [for step in ...] loop of [_extract_field_value], past
    the test [if not element]: the value [element] has after the step. *)
Definition path_step (element : Element) (step : pyval)
  : result (option Element) :=
  (step_type <- py_get step "type" PNone ;;
   tag <- py_get step "tag" PNone ;;
   class_name <- py_get step "class" PNone ;;
   if py_eq_str step_type "find" then
     if truthy class_name
     then find element tag (Some class_name)
     else find element tag None
   else if py_eq_str step_type "find_all" then
     elements <- (if truthy class_name
                  then find_all element tag (Some class_name)
                  else find_all element tag None) ;;
     index <- py_get step "index" (PInt 0) ;;
     match elements with
     | [] => Ok None
     | _ :: _ =>
         in_range <- py_int_gt (List.length elements) index ;;
         if in_range
         then x <- py_list_index elements index ;; Ok (Some x)
         else Ok None
     end
   else Ok (Some element))%res.

(** The loop itself; [element] is [None] for Python's [None]. *)
Fixpoint path_loop (element : option Element) (steps : list pyval)
  : result (option Element) :=
  match steps with
  | [] => Ok element
  | step :: rest =>
      match element with
      | None => Ok element                                  (* break *)
      | Some el =>
          (element <- path_step el step ;;
           path_loop element rest)%res
      end
  end.

(** The end of [_extract_field_value], below the test [if not element]: the
    dispatch on the extraction mode, at the element the path led to. *)
Definition extract_value
  (element : Element) (field_config : pyval) (base_url : string)
  : result pyval :=
  (extract_type <- py_get field_config "extract" (PStr "text") ;;
   if py_eq_str extract_type "text" then
     text <- get_text element ;; Ok (PStr text)
   else if py_eq_str extract_type "href" then
     relative_link <- get element (PStr "href") ;;
     if truthy relative_link
     then urljoin base_url relative_link
     else Ok NA
   else
     attr_value <- get element extract_type ;;
     Ok (if truthy attr_value then attr_value else NA))%res.

Definition _extract_field_value
  (container : Element) (field_config : pyval) (base_url : string)
  : result pyval :=
  (path <- py_get field_config "path" (PList []) ;;
   steps <- py_iter path ;;
   element <- path_loop (Some container) steps ;;
   match element with
   | None => Ok NA
   | Some element => extract_value element field_config base_url
   end)%res.

(** The inner loop of [_extract_products], over
    [self.config["fields"].items()]. *)
Fixpoint fields_loop
  (container : Element) (base_url : string)
  (items : list (string * pyval)) (product : dict pyval) : M (dict pyval) :=
  match items with
  | [] => ret product
  | (field_name, field_config) :: rest =>
      (product <- try_except
         (value <- lift (_extract_field_value container field_config base_url) ;;
          ret (dict_set product field_name value))
         (fun e =>
            let product := dict_set product field_name NA in
            print ("Advertencia: Error extrayendo campo '" ++ field_name
                     ++ "': " ++ exn_msg e) ;;;
            ret product) ;;
       fields_loop container base_url rest product)%io
  end.

(** [any(value != "N/A" for value in product.values())]. *)
Definition any_value (product : dict pyval) : bool :=
  existsb (fun value => negb (py_eq_str value "N/A")) (dict_values product).

(** The outer loop of [_extract_products], over [containers]. *)
Fixpoint containers_loop
  (self : t) (base_url : string)
  (containers : list Element) (products : list (dict pyval))
  : M (list (dict pyval)) :=
  match containers with
  | [] => ret products
  | container :: rest =>
      (fields <- lift (dict_getitem (config self) "fields") ;;
       items <- lift (py_items fields) ;;
       product <- fields_loop container base_url items [] ;;
       let products := if any_value product
                       then products ++ [product] else products in
       containers_loop self base_url rest products)%io
  end.

Definition _extract_products (self : t) (soup : Element) (base_url : string)
  : M (list (dict pyval)) :=
  (let products := [] in
   let container_class :=
     match dict_get (config self) "container_class" with
     | Some c => c
     | None => PNone
     end in
   containers <- lift (find_all soup (PStr "div") (Some container_class)) ;;
   match containers with
   | [] => ret products
   | _ :: _ => containers_loop self base_url containers products
   end)%io.

(** The metadata loop of [scrape_products]. *)
Fixpoint metadata_loop (self : t) (url : string) (products : list (dict pyval))
  : M (list (dict pyval)) :=
  match products with
  | [] => ret []
  | product :: rest =>
      (let product := dict_set product "_source_url" (PStr url) in
       now <- strftime ;;
       let product := dict_set product "_scraped_at" (PStr now) in
       config_used <- lift (if dict_mem (config self) "name"
                            then dict_getitem (config self) "name"
                            else Ok (PStr "default_config")) ;;
       let product := dict_set product "_config_used" config_used in
       rest <- metadata_loop self url rest ;;
       ret (product :: rest))%io
  end.

(** [scrape_products].  [response] is what [session.get(url)],
    [raise_for_status()] and the parse of the body give: the parsed
    document, or the exception raised on the way.  The pause before the
    request is a matter of real time and is left out. *)
Definition scrape_products
  (self : t) (response : string -> result Element) (url : string)
  : M (list (dict pyval)) :=
  try_except
    (soup <- lift (response url) ;;
     products <- _extract_products self soup url ;;
     metadata_loop self url products)%io
    (fun e =>
       match exn_cls e with
       | RequestException =>
           lift (Raise (mkExn PlainException
                          ("Error en request HTTP: " ++ exn_msg e)))
       | _ =>
           lift (Raise (mkExn PlainException
                          ("Error general en scraping: " ++ exn_msg e)))
       end).

End Engine.
End WebScraper.

(* ------------------------------------------------------------------------- *)
(** ** A concrete document model and URL library, to run the engine

    [Sample] answers the interface on a small tree of tags and text.  Its
    queries agree with BeautifulSoup for a tag name and an optional single
    class name, which is all the examples use; [urljoin] follows
    [urllib.parse.urljoin] of CPython 3.11 (without the removal of control
    characters and the validation of bracketed hosts). *)

Module Sample.

Inductive node : Type :=
| Tag (name : string) (attrs : dict pyval) (children : list node)
| Text (s : string).

(** All descendants of a node, in document order. *)
Fixpoint descendants (n : node) : list node :=
  match n with
  | Text _ => []
  | Tag _ _ children =>
      (fix over (l : list node) : list node :=
         match l with
         | [] => []
         | c :: rest => c :: descendants c ++ over rest
         end) children
  end.

Definition has_class (attrs : dict pyval) (c : string) : bool :=
  match dict_get attrs "class" with
  | Some (PList classes) => existsb (fun v => py_eq_str v c) classes
  | Some (PStr s) => String.eqb s c
  | _ => false
  end.

Definition class_filter (c : option pyval) (attrs : dict pyval) : bool :=
  match c with
  | None | Some PNone => true
  | Some (PStr s) => has_class attrs s
  | Some _ => false
  end.

Definition matches (tag : pyval) (c : option pyval) (n : node) : bool :=
  match n with
  | Text _ => false
  | Tag name attrs _ =>
      match tag with
      | PStr t => String.eqb name t && class_filter c attrs
      | PNone => class_filter c attrs
      | _ => false
      end
  end.

Definition node_find_all (n : node) (tag : pyval) (c : option pyval)
  : result (list node) :=
  Ok (filter (matches tag c) (descendants n)).

Definition node_find (n : node) (tag : pyval) (c : option pyval)
  : result (option node) :=
  Ok (hd_error (filter (matches tag c) (descendants n))).

(** ASCII white space, as [str.strip()] removes it. *)
Definition is_space (a : ascii) : bool :=
  let n := nat_of_ascii a in
  (((9 <=? n) && (n <=? 13)) || ((28 <=? n) && (n <=? 32)))%nat.

Fixpoint lstrip (s : string) : string :=
  match s with
  | EmptyString => EmptyString
  | String a rest => if is_space a then lstrip rest else s
  end.

Fixpoint rstrip (s : string) : string :=
  match s with
  | EmptyString => EmptyString
  | String a rest =>
      match rstrip rest with
      | EmptyString => if is_space a then EmptyString else String a EmptyString
      | kept => String a kept
      end
  end.

Definition strip (s : string) : string := rstrip (lstrip s).

(** [get_text(strip=True)]: the stripped, non-empty strings below the node,
    joined with nothing in between. *)
Definition node_get_text (n : node) : result string :=
  Ok (String.concat ""
        (flat_map (fun d => match d with
                            | Text s => match strip s with
                                        | EmptyString => []
                                        | t => [t]
                                        end
                            | Tag _ _ _ => []
                            end)
                  (match n with Text _ => [n] | Tag _ _ _ => descendants n end))).

Definition node_get (n : node) (key : pyval) : result pyval :=
  match n with
  | Text _ => Raise (mkExn AttributeError
                       "'NavigableString' object has no attribute 'get'")
  | Tag _ attrs _ =>
      match key with
      | PStr k => match dict_get attrs k with
                  | Some v => Ok v
                  | None => Ok PNone
                  end
      | PList _ | PDict _ =>
          Raise (mkExn TypeError ("unhashable type: '" ++ type_name key ++ "'"))
      | _ => Ok PNone
      end
  end.

#[export] Instance document_model : DocumentModel := {
  Element := node;
  find := node_find;
  find_all := node_find_all;
  get_text := node_get_text;
  get := node_get
}.

(** *** urllib.parse *)

Definition uses_relative : list string :=
  [""; "ftp"; "http"; "gopher"; "nntp"; "imap"; "wais"; "file"; "https";
   "shttp"; "mms"; "prospero"; "rtsp"; "rtspu"; "sftp"; "svn"; "svn+ssh";
   "ws"; "wss"].

Definition uses_netloc : list string :=
  [""; "ftp"; "http"; "gopher"; "nntp"; "telnet"; "imap"; "wais"; "file";
   "mms"; "https"; "shttp"; "snews"; "prospero"; "rtsp"; "rtspu"; "rsync";
   "svn"; "svn+ssh"; "sftp"; "nfs"; "git"; "git+ssh"; "ws"; "wss"].

Definition uses_params : list string :=
  [""; "ftp"; "hdl"; "prospero"; "http"; "imap"; "https"; "shttp"; "rtsp";
   "rtspu"; "sip"; "sips"; "mms"; "sftp"; "tel"].

Definition str_in (s : string) (l : list string) : bool :=
  existsb (String.eqb s) l.

Definition is_alpha (a : ascii) : bool :=
  let n := nat_of_ascii a in
  (((65 <=? n) && (n <=? 90)) || ((97 <=? n) && (n <=? 122)))%nat.

Definition is_scheme_char (a : ascii) : bool :=
  let n := nat_of_ascii a in
  is_alpha a || (((48 <=? n) && (n <=? 57))
                 || (n =? 43) || (n =? 45) || (n =? 46))%nat.

Definition lower_char (a : ascii) : ascii :=
  let n := nat_of_ascii a in
  if ((65 <=? n) && (n <=? 90))%nat then ascii_of_nat (n + 32) else a.

Fixpoint lower (s : string) : string :=
  match s with
  | EmptyString => EmptyString
  | String a rest => String (lower_char a) (lower rest)
  end.

Fixpoint all_chars (p : ascii -> bool) (s : string) : bool :=
  match s with
  | EmptyString => true
  | String a rest => p a && all_chars p rest
  end.

(** [s.split(c, 1)] as (before, after), or [None] when [c] is not in [s]. *)
Fixpoint split_once (c : ascii) (s : string) : option (string * string) :=
  match s with
  | EmptyString => None
  | String a rest =>
      if Ascii.eqb a c then Some (EmptyString, rest)
      else match split_once c rest with
           | Some (before, after) => Some (String a before, after)
           | None => None
           end
  end.

(** [s.split(c)]. *)
Fixpoint split (c : ascii) (s : string) : list string :=
  match s with
  | EmptyString => [EmptyString]
  | String a rest =>
      if Ascii.eqb a c then EmptyString :: split c rest
      else match split c rest with
           | first :: others => String a first :: others
           | [] => [String a EmptyString]
           end
  end.

(** The longest prefix free of the characters [stop] holds, and the rest. *)
Fixpoint span_until (stop : ascii -> bool) (s : string) : string * string :=
  match s with
  | EmptyString => (EmptyString, EmptyString)
  | String a rest =>
      if stop a then (EmptyString, s)
      else let (before, after) := span_until stop rest in
           (String a before, after)
  end.

Definition slash : ascii := "/"%char.

Record parts : Type := mkParts {
  scheme : string; netloc : string; path : string;
  params : string; query : string; fragment : string
}.

Definition urlsplit (url default_scheme : string)
  : string * string * string * string * string :=
  let (scheme, url) :=
    match split_once ":"%char url with
    | Some (String a before, after) =>
        if is_alpha a && all_chars is_scheme_char (String a before)
        then (lower (String a before), after)
        else (default_scheme, url)
    | _ => (default_scheme, url)
    end in
  let (netloc, url) :=
    match url with
    | String "/" (String "/" rest) =>
        span_until (fun a => Ascii.eqb a slash || Ascii.eqb a "?"%char
                             || Ascii.eqb a "#"%char) rest
    | _ => (EmptyString, url)
    end in
  let (url, fragment) :=
    match split_once "#"%char url with
    | Some (before, after) => (before, after)
    | None => (url, EmptyString)
    end in
  let (url, query) :=
    match split_once "?"%char url with
    | Some (before, after) => (before, after)
    | None => (url, EmptyString)
    end in
  (scheme, netloc, url, query, fragment).

(** [_splitparams]: the parameters follow the first [;] of the last path
    segment. *)
Definition _splitparams (url : string) : string * string :=
  let segments := split slash url in
  let last_segment := last segments EmptyString in
  match split_once ";"%char last_segment with
  | None => (url, EmptyString)
  | Some (before, after) =>
      (String.concat "/" (removelast segments ++ [before]), after)
  end.

Definition urlparse (url default_scheme : string) : parts :=
  match urlsplit url default_scheme with
  | (scheme, netloc, url, query, fragment) =>
      let (url, params) :=
        if str_in scheme uses_params then _splitparams url
        else (url, EmptyString) in
      mkParts scheme netloc url params query fragment
  end.

Definition nonempty (s : string) : bool := negb (String.eqb s "").

Definition urlunparse (p : parts) : string :=
  let url :=
    if nonempty (params p) then (path p ++ ";" ++ params p)%string
    else path p in
  let url :=
    if nonempty (netloc p)
       || (nonempty (scheme p) && str_in (scheme p) uses_netloc
           && negb (String.prefix "//" url))
    then ("//" ++ netloc p
               ++ (if nonempty url && negb (String.prefix "/" url)
                   then "/" ++ url else url))%string
    else url in
  let url :=
    if nonempty (scheme p) then (scheme p ++ ":" ++ url)%string else url in
  let url :=
    if nonempty (query p) then (url ++ "?" ++ query p)%string else url in
  if nonempty (fragment p) then (url ++ "#" ++ fragment p)%string else url.

(** [segments[1:-1] = filter(None, segments[1:-1])]. *)
Definition drop_inner_empties (segments : list string) : list string :=
  match segments with
  | first :: (_ :: _) as others =>
      first :: filter nonempty (removelast others) ++ [last others EmptyString]
  | _ => segments
  end.

(** The loop of [urljoin] over the segments; [resolved] is kept reversed. *)
Fixpoint resolve_segments (segments resolved : list string) : list string :=
  match segments with
  | [] => rev resolved
  | seg :: rest =>
      if String.eqb seg ".." then resolve_segments rest (tl resolved)
      else if String.eqb seg "." then resolve_segments rest resolved
      else resolve_segments rest (seg :: resolved)
  end.

Definition urljoin_str (base url : string) : string :=
  let b := urlparse base "" in
  let u := urlparse url (scheme b) in
  if negb (String.eqb (scheme u) (scheme b))
     || negb (str_in (scheme u) uses_relative)
  then url
  else if str_in (scheme u) uses_netloc && nonempty (netloc u)
  then urlunparse u
  else
    let netloc := if str_in (scheme u) uses_netloc then netloc b else netloc u in
    if negb (nonempty (path u)) && negb (nonempty (params u))
    then urlunparse (mkParts (scheme u) netloc (path b) (params b)
                       (if nonempty (query u) then query u else query b)
                       (fragment u))
    else
      let base_parts := split slash (path b) in
      let base_parts := if nonempty (last base_parts EmptyString)
                        then removelast base_parts else base_parts in
      let segments :=
        if String.prefix "/" (path u) then split slash (path u)
        else drop_inner_empties (base_parts ++ split slash (path u)) in
      let resolved := resolve_segments segments [] in
      let last_segment := last segments EmptyString in
      let resolved :=
        if String.eqb last_segment "." || String.eqb last_segment ".."
        then resolved ++ [EmptyString] else resolved in
      let joined := String.concat "/" resolved in
      urlunparse (mkParts (scheme u) netloc
                    (if nonempty joined then joined else "/")
                    (params u) (query u) (fragment u)).

Definition sample_urljoin (base : string) (url : pyval) : result pyval :=
  if String.eqb base "" then Ok url
  else if negb (truthy url) then Ok (PStr base)
  else match url with
       | PStr u => Ok (PStr (urljoin_str base u))
       | _ => Raise (mkExn TypeError "Cannot mix str and non-str arguments")
       end.

#[export] Instance url_library : UrlLibrary := { urljoin := sample_urljoin }.

End Sample.

(* ------------------------------------------------------------------------- *)
(** ** Sample pages and configurations *)

Module Shop.
Import Sample.

Definition base_url : string := "https://shop.example/cat/".

Definition find_step (tag : string) : pyval :=
  PDict [("type", PStr "find"); ("tag", PStr tag)].

Definition find_all_step (tag : string) (index : Z) : pyval :=
  PDict [("type", PStr "find_all"); ("tag", PStr tag); ("index", PInt index)].

(** One field [title] read as text below [h3], one field [link] read as a
    link below [a]. *)
Definition card_fields : dict pyval :=
  [("title", PDict [("path", PList [find_step "h3"]); ("extract", PStr "text")]);
   ("link", PDict [("path", PList [find_step "a"]); ("extract", PStr "href")])].

Definition card_config : dict pyval :=
  [("container_class", PStr "card"); ("fields", PDict card_fields)].

Definition full_card : node :=
  Tag "div" [("class", PList [PStr "card"])]
    [Tag "h3" [] [Text " A "]; Tag "a" [("href", PStr "/p/1")] []].

Definition empty_card : node :=
  Tag "div" [("class", PList [PStr "card"])] [].

(** Two cards, the second without content. *)
Definition page : node :=
  Tag "[document]" [] [Tag "body" [] [full_card; empty_card]].

(** A container with two paragraphs. *)
Definition two_paragraphs : node :=
  Tag "div" [("class", PList [PStr "card"])]
    [Tag "p" [] [Text "first"]; Tag "p" [] [Text "second"]].

(** Fields whose extraction raises next to one that succeeds: a [path] that
    is a number, an index below the first match counted from the end, and a
    mode the document model cannot hash. *)
Definition faulty_fields : dict pyval :=
  [("broken_path", PDict [("path", PInt 3)]);
   ("text", PDict [("path", PList [find_all_step "p" 1])]);
   ("far_back", PDict [("path", PList [find_all_step "p" (-5)])]);
   ("odd_mode", PDict [("extract", PList [PStr "id"])])].

Definition faulty_config : dict pyval :=
  [("container_class", PStr "card"); ("fields", PDict faulty_fields);
   ("name", PStr "faulty")].

Definition paragraphs_page : node :=
  Tag "[document]" [] [two_paragraphs; empty_card].

Definition start : world :=
  mkWorld [] (fun _ => "2024-05-01 12:00:00") 0.

Definition online (document : node) (url : string) : result node := Ok document.

End Shop.

(* ------------------------------------------------------------------------- *)
(** ** What the scan computes, stated without effects *)

Import WebScraper.

Section Outcome.
Context {DM : DocumentModel} {UL : UrlLibrary}.

(** The value a field ends with: the extracted one, or the sentinel when the
    extraction raised. *)
Definition field_outcome
  (container : Element) (field_config : pyval) (base_url : string) : pyval :=
  match _extract_field_value container field_config base_url with
  | Ok value => value
  | Raise _ => NA
  end.

(** The lines printed for the fields whose extraction raised. *)
Definition field_warnings
  (container : Element) (base_url : string) (items : list (string * pyval))
  : list string :=
  flat_map
    (fun item =>
       match _extract_field_value container (snd item) base_url with
       | Ok _ => []
       | Raise e => [("Advertencia: Error extrayendo campo '" ++ fst item
                        ++ "': " ++ exn_msg e)%string]
       end)
    items.

(** The assignments [product[field_name] = ...] of one container, in order. *)
Definition assign_fields
  (container : Element) (base_url : string) (items : list (string * pyval))
  (product : dict pyval) : dict pyval :=
  fold_left
    (fun product item =>
       dict_set product (fst item) (field_outcome container (snd item) base_url))
    items product.

(** The record of a container when no two fields share a name. *)
Definition record_of
  (container : Element) (base_url : string) (fields : dict pyval)
  : dict pyval :=
  map (fun item => (fst item, field_outcome container (snd item) base_url))
      fields.

End Outcome.

Definition provenance_keys : list string :=
  ["_source_url"; "_scraped_at"; "_config_used"].

(** [self.config.get("container_class")]. *)
Definition container_class_of (self : WebScraper.t) : pyval :=
  match dict_get (config self) "container_class" with
  | Some c => c
  | None => PNone
  end.

(** [self.config["name"] if "name" in self.config else "default_config"]. *)
Definition config_used (self : WebScraper.t) : pyval :=
  match dict_get (config self) "name" with
  | Some name => name
  | None => PStr "default_config"
  end.

(* ------------------------------------------------------------------------- *)
(** ** The other methods of [WebScraper] *)

(** [needle in hay] for two strings. *)
Fixpoint is_substring (needle hay : string) : bool :=
  String.prefix needle hay
  || match hay with
     | EmptyString => false
     | String _ rest => is_substring needle rest
     end.

(** [key in v] for a string [key]: a key of a dict, an item of a list, a
    substring of a string. *)
Definition py_contains (key : string) (v : pyval) : result bool :=
  match v with
  | PDict d => Ok (dict_mem d key)
  | PList l => Ok (existsb (fun x => py_eq_str x key) l)
  | PStr s => Ok (is_substring key s)
  | _ => Raise (mkExn TypeError
                  ("argument of type '" ++ type_name v ++ "' is not iterable"))
  end.

(** [l[:stop]]. *)
Definition slice_to {A} (l : list A) (stop : Z) : list A :=
  if Z.ltb stop 0
  then firstn (Z.to_nat (Z.of_nat (List.length l) + stop)) l
  else firstn (Z.to_nat stop) l.

(** [self.config_path].  [__init__] sets [config], [delay] and [session] and
    [scrape_products] sets [_last_request_time]; neither the class nor any
    caller in the repository gives the object a [config_path]. *)
Definition self_config_path (self : WebScraper.t) : result pyval :=
  Raise (mkExn AttributeError
           "'WebScraper' object has no attribute 'config_path'").

(** [v.name]: none of the values above has the attribute. *)
Definition py_attr_name (v : pyval) : result pyval :=
  Raise (mkExn AttributeError
           ("'" ++ type_name v ++ "' object has no attribute 'name'")).

(** The loop over [required_keys] in [_load_config]. *)
Fixpoint load_required_keys_loop (required_keys : list string) (config : pyval)
  : result unit :=
  match required_keys with
  | [] => Ok tt
  | key :: rest =>
      (present <- py_contains key config ;;
       if negb present
       then Raise (mkExn ValueError
                     ("Clave requerida '" ++ key
                        ++ "' no encontrada en configuración"))
       else load_required_keys_loop rest config)%res
  end.

(** [_load_config]; [open_json] stands for opening the file at a path and
    [json.load] of its content. *)
Definition _load_config
  (self : WebScraper.t) (open_json : pyval -> result pyval) : result pyval :=
  match (config_path <- self_config_path self ;;
         config <- open_json config_path ;;
         _ <- load_required_keys_loop ["container_class"; "fields"] config ;;
         Ok config)%res with
  | Ok config => Ok config
  | Raise e =>
      Raise (mkExn PlainException
               ("Error cargando configuración: " ++ exn_msg e))
  end.

Section Probe.
Context {DM : DocumentModel} {UL : UrlLibrary}.

(** [test_config_on_url]. *)
Definition test_config_on_url
  (self : WebScraper.t) (response : string -> result Element)
  (url : string) (max_products : Z) : M pyval :=
  try_except
    (products <- scrape_products self response url ;;
     config_path <- lift (self_config_path self) ;;
     name <- lift (py_attr_name config_path) ;;
     ret (PDict [("success", PBool true);
                 ("total_products", PInt (Z.of_nat (List.length products)));
                 ("sample_products",
                  PList (map PDict (slice_to products max_products)));
                 ("url", PStr url);
                 ("config_used", name)]))%io
    (fun e =>
       (config_path <- lift (self_config_path self) ;;
        name <- lift (py_attr_name config_path) ;;
        ret (PDict [("success", PBool false);
                    ("error", PStr (exn_msg e));
                    ("url", PStr url);
                    ("config_used", name)]))%io).

End Probe.

(** The three assignments of the metadata loop of [scrape_products], for a
    record and the reading [now] of the clock. *)
Definition stamp
  (self : WebScraper.t) (url now : string) (product : dict pyval)
  : dict pyval :=
  dict_set
    (dict_set (dict_set product "_source_url" (PStr url))
       "_scraped_at" (PStr now))
    "_config_used" (config_used self).

(** The prefix [scrape_products] puts before the message of a failure. *)
Definition failure_prefix (cause : exn) : string :=
  match exn_cls cause with
  | RequestException => "Error en request HTTP: "
  | _ => "Error general en scraping: "
  end.

(* ------------------------------------------------------------------------- *)
(** ** class URLReader ([src/url_reader.py]) *)

(** [str(n)] for a natural number. *)
Definition str_of_nat (n : nat) : string :=
  NilEmpty.string_of_uint (Nat.to_uint n).

(** [str.strip()], which removes the white space of Unicode at both ends. *)
Class TextLibrary : Type := {
  strip : string -> string
}.

(** The two components of [urllib.parse.urlparse(url)] the reader uses. *)
Record parsed_url : Type := mkParsed {
  url_scheme : string;
  url_netloc : string
}.

Class UrlParser : Type := {
  urlparse : string -> result parsed_url
}.

(** What the reader asks of the file system: [Path.exists()] and the lines
    [open(path).readlines()] gives, or the exception raised on the way. *)
Record file_system : Type := mkFiles {
  path_exists : string -> bool;
  readlines : string -> result (list string)
}.

Module URLReader.

Record t : Type := mk { file_path : string; urls : list string }.

Definition __init__ (file_path : string) : t := mk file_path [].

Section Reader.
Context {TL : TextLibrary} {UP : UrlParser}.

Definition _is_valid_url (url : string) : bool :=
  match urlparse url with
  | Ok result =>
      negb (String.eqb (url_scheme result) "")
      && negb (String.eqb (url_netloc result) "")
  | Raise _ => false
  end.

(** The first loop of [load_urls], over [enumerate(lines, 1)]. *)
Fixpoint raw_urls_loop
  (line_num : nat) (lines : list string) (raw_urls : list (nat * string))
  : list (nat * string) :=
  match lines with
  | [] => raw_urls
  | line :: rest =>
      let line := strip line in
      if String.eqb line "" || String.prefix "#" line
      then raw_urls_loop (S line_num) rest raw_urls               (* continue *)
      else raw_urls_loop (S line_num) rest (raw_urls ++ [(line_num, line)])
  end.

(** The second loop of [load_urls], over [raw_urls]. *)
Fixpoint valid_urls_loop
  (raw_urls : list (nat * string)) (valid_urls : list string)
  : M (list string) :=
  match raw_urls with
  | [] => ret valid_urls
  | (line_num, url) :: rest =>
      if _is_valid_url url
      then valid_urls_loop rest (valid_urls ++ [url])
      else (print ("Advertencia: URL inválida en línea "
                     ++ str_of_nat line_num ++ ": " ++ url) ;;;
            valid_urls_loop rest valid_urls)%io
  end.

(** [load_urls]: the object after the call and the list returned. *)
Definition load_urls (self : t) (files : file_system) : M (t * list string) :=
  if negb (path_exists files (file_path self))
  then lift (Raise (mkExn (LibraryError "FileNotFoundError")
                      ("Archivo no encontrado: " ++ file_path self)))
  else
    try_except
      (lines <- lift (readlines files (file_path self)) ;;
       let raw_urls := raw_urls_loop 1 lines [] in
       valid_urls <- valid_urls_loop raw_urls [] ;;
       ret (mk (file_path self) valid_urls, valid_urls))%io
      (fun e =>
         lift (Raise (mkExn PlainException
                        ("Error leyendo archivo de URLs: " ++ exn_msg e)))).

(** [add_url]: the object after the call and the boolean returned. *)
Definition add_url (self : t) (url : string) : t * bool :=
  if _is_valid_url url
  then if negb (existsb (String.eqb url) (urls self))
       then (mk (file_path self) (urls self ++ [url]), true)
       else (self, false)
  else (self, false).

(** The loop of [get_domain_stats]. *)
Fixpoint domain_stats_loop (urls : list string) (domain_count : dict Z)
  : dict Z :=
  match urls with
  | [] => domain_count
  | url :: rest =>
      match urlparse url with
      | Ok result =>
          let domain := url_netloc result in
          domain_stats_loop rest
            (dict_set domain_count domain
               (match dict_get domain_count domain with
                | Some n => n
                | None => 0
                end + 1)%Z)
      | Raise _ => domain_stats_loop rest domain_count         (* continue *)
      end
  end.

Definition get_domain_stats (self : t) : dict Z :=
  domain_stats_loop (urls self) [].

End Reader.
End URLReader.

(** A stripped line that [load_urls] keeps as a candidate: not empty and
    not a comment. *)
Definition is_entry (line : string) : bool :=
  negb (String.eqb line "" || String.prefix "#" line).

(** The items of a list with their positions counted from 1. *)
Definition numbered {A} (l : list A) : list (nat * A) :=
  combine (seq 1 (List.length l)) l.

(** The line [load_urls] prints for a candidate that is no URL. *)
Definition invalid_url_warning (entry : nat * string) : string :=
  "Advertencia: URL inválida en línea " ++ str_of_nat (fst entry)
    ++ ": " ++ snd entry.

(** How many of the URLs parse with the given host. *)
Definition count_domain {UP : UrlParser} (domain : string) (urls : list string)
  : nat :=
  List.length
    (filter (fun url =>
               match urlparse url with
               | Ok result => String.eqb (url_netloc result) domain
               | Raise _ => false
               end)
            urls).

(* ------------------------------------------------------------------------- *)
(** ** class URLManager ([src/utils.py]) *)

Module URLManager.
Section Manager.
Context {UP : UrlParser}.

(** [extract_domain]: the host, or [None] when the parse raised. *)
Definition extract_domain (url : string) : option string :=
  match urlparse url with
  | Ok parsed => Some (url_netloc parsed)
  | Raise _ => None
  end.

(** [is_same_domain]: the value of
    [domain1 and domain2 and domain1 == domain2], which is the first of
    the two domains that is [None] or empty when there is one. *)
Definition is_same_domain (url1 url2 : string) : pyval :=
  let domain1 := extract_domain url1 in
  let domain2 := extract_domain url2 in
  match domain1 with
  | None => PNone
  | Some d1 =>
      if String.eqb d1 "" then PStr d1
      else match domain2 with
           | None => PNone
           | Some d2 =>
               if String.eqb d2 "" then PStr d2
               else PBool (String.eqb d1 d2)
           end
  end.

End Manager.
End URLManager.

(* ------------------------------------------------------------------------- *)
(** ** The loop of [main] over the URLs ([src/main.py]) *)

Inductive log_level : Type := INFO | WARNING | ERROR.

(** What the loop has after a URL: the records gathered, the count of
    successful scrapes, the world and the records of the logger. *)
Record batch : Type := mkBatch {
  all_products : list (dict pyval);
  successful_scrapes : nat;
  batch_world : world;
  logged : list (log_level * string)
}.

Section Batch.
Context {DM : DocumentModel} {UL : UrlLibrary}.

(** [for i, url in enumerate(urls, 1)] of [main], step 4; [total] is
    [len(urls)] and the logger's calls are kept as (level, message). *)
Fixpoint urls_loop
  (scraper : WebScraper.t) (response : string -> result Element)
  (total i : nat) (urls : list string) (b : batch) : batch :=
  match urls with
  | [] => b
  | url :: rest =>
      let logged :=
        logged b
          ++ [(INFO, ("Procesando URL " ++ str_of_nat i ++ "/"
                        ++ str_of_nat total ++ ": " ++ url)%string)] in
      match scrape_products scraper response url (batch_world b) with
      | (Ok products, w) =>
          match products with
          | _ :: _ =>
              urls_loop scraper response total (S i) rest
                (mkBatch (all_products b ++ products)
                   (successful_scrapes b + 1) w
                   (logged
                      ++ [(INFO, ("Extraídos "
                                    ++ str_of_nat (List.length products)
                                    ++ " productos de la URL "
                                    ++ str_of_nat i)%string)]))
          | [] =>
              urls_loop scraper response total (S i) rest
                (mkBatch (all_products b) (successful_scrapes b) w
                   (logged
                      ++ [(WARNING, ("No se encontraron productos en la URL "
                                       ++ str_of_nat i)%string)]))
          end
      | (Raise e, w) =>
          urls_loop scraper response total (S i) rest
            (mkBatch (all_products b) (successful_scrapes b) w
               (logged
                  ++ [(ERROR, ("Error procesando URL " ++ str_of_nat i
                                 ++ ": " ++ exn_msg e)%string)]))
      end
  end.

End Batch.

(* ------------------------------------------------------------------------- *)
(** ** Sample files *)

Module Files.

#[export] Instance text_library : TextLibrary := { strip := Sample.strip }.

#[export] Instance url_parser : UrlParser := {
  urlparse url :=
    let p := Sample.urlparse url "" in
    Ok (mkParsed (Sample.scheme p) (Sample.netloc p))
}.

Definition newline : string := String (ascii_of_nat 10) EmptyString.

(** A URL file: a comment, a blank line, two pages of one shop, a line
    that is no URL and one page of another host. *)
Definition url_lines : list string :=
  [("# shops" ++ newline)%string;
   newline;
   ("  https://shop.example/cat/ " ++ newline)%string;
   ("shop.example/other" ++ newline)%string;
   ("https://shop.example/sale" ++ newline)%string;
   "https://cdn.example/x"].

Definition disk : file_system :=
  mkFiles (fun path => String.eqb path "configs/urls.txt")
          (fun _ => Ok url_lines).

(** The answers of three URLs: one that cannot be fetched, the page with
    two cards, and pages without cards. *)
Definition sample_response (url : string) : result Sample.node :=
  if String.eqb url "https://shop.example/down"
  then Raise (mkExn RequestException "503 Server Error")
  else if String.eqb url Shop.base_url then Ok Shop.page
  else Ok (Sample.Tag "[document]" [] []).

End Files.

(* ------------------------------------------------------------------------- *)
(** ** Lemmas on values and dictionaries *)

Lemma py_eq_str_true (v : pyval) (s : string) :
  py_eq_str v s = true <-> v = PStr s.
Proof.
  destruct v; simpl; split; intros H; try discriminate.
  - apply String.eqb_eq in H. now subst.
  - injection H as ->. apply String.eqb_refl.
Qed.

Lemma py_eq_str_false (v : pyval) (s : string) :
  py_eq_str v s = false <-> v <> PStr s.
Proof.
  rewrite <- py_eq_str_true. destruct (py_eq_str v s); split; congruence.
Qed.

Section Dict.
Context {V : Type}.
Implicit Types (d : dict V) (k : string) (v : V).

Lemma dict_get_set_same d k v : dict_get (dict_set d k v) k = Some v.
Proof.
  induction d as [|[k' v'] d IH]; simpl.
  - now rewrite String.eqb_refl.
  - destruct (String.eqb k' k) eqn:E; simpl; rewrite E; auto.
Qed.

Lemma dict_get_set_other d k k' v :
  k <> k' -> dict_get (dict_set d k v) k' = dict_get d k'.
Proof.
  intros Hne. induction d as [|[k0 v0] d IH]; simpl.
  - destruct (String.eqb k k') eqn:E; auto.
    apply String.eqb_eq in E. contradiction.
  - destruct (String.eqb k0 k) eqn:E; simpl.
    + apply String.eqb_eq in E. subst k0.
      destruct (String.eqb k k') eqn:E'; auto.
      apply String.eqb_eq in E'. contradiction.
    + now rewrite IH.
Qed.

Lemma dict_keys_set d k v k' :
  In k' (dict_keys (dict_set d k v)) <-> k' = k \/ In k' (dict_keys d).
Proof.
  unfold dict_keys. induction d as [|[k0 v0] d IH]; simpl.
  - intuition.
  - destruct (String.eqb k0 k) eqn:E; simpl.
    + apply String.eqb_eq in E. subst k0. intuition.
    + rewrite IH. intuition.
Qed.

Lemma dict_set_NoDup d k v :
  NoDup (dict_keys d) -> NoDup (dict_keys (dict_set d k v)).
Proof.
  unfold dict_keys. induction d as [|[k0 v0] d IH]; simpl; intros Hnd.
  - constructor; [intros []|constructor].
  - destruct (String.eqb k0 k) eqn:E; simpl; auto.
    inversion Hnd as [|? ? Hnotin Hnd']; subst.
    constructor; auto.
    intros Hin. apply (dict_keys_set d k v k0) in Hin.
    destruct Hin as [->|Hin]; [|contradiction].
    rewrite String.eqb_refl in E. discriminate.
Qed.

Lemma dict_set_fresh d k v :
  ~ In k (dict_keys d) -> dict_set d k v = d ++ [(k, v)].
Proof.
  unfold dict_keys. induction d as [|[k0 v0] d IH]; simpl; intros Hnotin; auto.
  destruct (String.eqb k0 k) eqn:E.
  - apply String.eqb_eq in E. subst. tauto.
  - rewrite IH; tauto.
Qed.

Lemma dict_get_In d k v :
  NoDup (dict_keys d) -> In (k, v) d -> dict_get d k = Some v.
Proof.
  unfold dict_keys. induction d as [|[k0 v0] d IH]; simpl; intros Hnd Hin.
  - contradiction.
  - inversion Hnd as [|? ? Hnotin Hnd']; subst.
    destruct Hin as [Heq|Hin].
    + injection Heq as -> ->. now rewrite String.eqb_refl.
    + destruct (String.eqb k0 k) eqn:E; auto.
      apply String.eqb_eq in E. subst k0.
      exfalso. apply Hnotin. apply (in_map fst) in Hin. exact Hin.
Qed.

Lemma dict_mem_true d k : dict_mem d k = true <-> exists v, dict_get d k = Some v.
Proof.
  unfold dict_mem. destruct (dict_get d k); split; intros H; eauto.
  - discriminate.
  - destruct H as [? H]. discriminate.
Qed.

End Dict.

(* ------------------------------------------------------------------------- *)
(** ** Lemmas on the engine *)

(** Case analysis on the next call that may raise. *)
Ltac next_call :=
  match goal with
  | H : context [rbind ?r _] |- _ =>
      let E := fresh "E" in destruct r eqn:E; simpl in H; try discriminate H
  | |- context [rbind ?r _] =>
      let E := fresh "E" in destruct r eqn:E; simpl
  end.

Section EngineLemmas.
Context {DM : DocumentModel} {UL : UrlLibrary}.

Lemma path_loop_None (steps : list pyval) : path_loop None steps = Ok None.
Proof. destruct steps; reflexivity. Qed.

Lemma path_loop_short_circuit (pre rest : list pyval) :
  forall element,
    path_loop element pre = Ok None ->
    path_loop element (pre ++ rest) = Ok None.
Proof.
  induction pre as [|step pre IH]; intros element H.
  - simpl in H. injection H as ->. apply path_loop_None.
  - destruct element as [el|]; [|reflexivity].
    simpl in *. next_call. simpl. now apply IH.
Qed.

Lemma world_eta (w : world) :
  mkWorld (stdout w ++ []) (clock w) (ticks w) = w.
Proof. destruct w; simpl. now rewrite app_nil_r. Qed.

Lemma fields_loop_spec
  (container : Element) (base_url : string) (items : list (string * pyval)) :
  forall (product : dict pyval) (w : world),
    fields_loop container base_url items product w =
      (Ok (assign_fields container base_url items product),
       mkWorld (stdout w ++ field_warnings container base_url items)
               (clock w) (ticks w)).
Proof.
  induction items as [|[field_name field_config] items IH]; intros product w.
  - simpl. unfold ret. now rewrite world_eta.
  - simpl. unfold bind, try_except, lift, ret, print, field_outcome.
    destruct (_extract_field_value container field_config base_url);
      simpl; rewrite IH; simpl; [reflexivity|].
    now rewrite <- app_assoc.
Qed.

Lemma containers_loop_spec
  (self : WebScraper.t) (base_url : string) (fields : dict pyval) :
  dict_get (config self) "fields" = Some (PDict fields) ->
  forall (containers : list Element) (products : list (dict pyval)) (w : world),
    containers_loop self base_url containers products w =
      (Ok (products
             ++ filter any_value
                  (map (fun c => assign_fields c base_url fields []) containers)),
       mkWorld (stdout w
                  ++ flat_map (fun c => field_warnings c base_url fields)
                       containers)
               (clock w) (ticks w)).
Proof.
  intros Hfields.
  induction containers as [|container containers IH]; intros products w.
  - simpl. unfold ret. now rewrite world_eta, app_nil_r.
  - simpl. unfold bind at 1, lift at 1, dict_getitem. rewrite Hfields.
    unfold bind at 1, lift at 1. simpl.
    unfold bind at 1. rewrite fields_loop_spec, IH. simpl.
    rewrite <- (app_assoc (stdout w)).
    destruct (any_value (assign_fields container base_url fields [])).
    + now rewrite <- app_assoc.
    + reflexivity.
Qed.

Lemma containers_loop_needs_fields
  (self : WebScraper.t) (base_url : string) (container : Element)
  (containers : list Element) (products out : list (dict pyval)) (w w' : world) :
  containers_loop self base_url (container :: containers) products w
    = (Ok out, w') ->
  exists fields, dict_get (config self) "fields" = Some (PDict fields).
Proof.
  simpl. unfold bind at 1, lift at 1, dict_getitem.
  destruct (dict_get (config self) "fields") as [fields|]; [|discriminate].
  destruct fields; simpl; try discriminate. eauto.
Qed.

Lemma assign_fields_keys
  (container : Element) (base_url : string) (items : list (string * pyval)) :
  forall (product : dict pyval) (k : string),
    In k (dict_keys (assign_fields container base_url items product))
    <-> In k (dict_keys product) \/ In k (dict_keys items).
Proof.
  induction items as [|[name fc] items IH]; intros product k; simpl.
  - tauto.
  - unfold assign_fields in *. simpl. rewrite IH, dict_keys_set.
    unfold dict_keys. simpl. intuition congruence.
Qed.

Lemma assign_fields_NoDup
  (container : Element) (base_url : string) (items : list (string * pyval)) :
  forall product : dict pyval,
    NoDup (dict_keys product) ->
    NoDup (dict_keys (assign_fields container base_url items product)).
Proof.
  induction items as [|[name fc] items IH]; intros product Hnd; simpl; auto.
  unfold assign_fields in *. simpl. apply IH. now apply dict_set_NoDup.
Qed.

Lemma assign_fields_distinct
  (container : Element) (base_url : string) (items : list (string * pyval)) :
  forall product : dict pyval,
    NoDup (dict_keys product ++ dict_keys items) ->
    assign_fields container base_url items product
    = product ++ record_of container base_url items.
Proof.
  induction items as [|[name fc] items IH]; intros product Hnd; simpl.
  - now rewrite app_nil_r.
  - unfold assign_fields in *. simpl in *.
    assert (Hfresh : ~ In name (dict_keys product)).
    { intros Hin. apply NoDup_remove_2 in Hnd. apply Hnd.
      apply in_or_app. now left. }
    rewrite (dict_set_fresh _ _ _ Hfresh), IH.
    + now rewrite <- app_assoc.
    + unfold dict_keys in *. rewrite map_app. simpl. rewrite <- app_assoc.
      simpl. apply NoDup_remove_1 in Hnd as Hnd'.
      apply NoDup_remove_2 in Hnd.
      clear -Hnd Hnd'.
      induction (map fst product) as [|x xs IHxs]; simpl in *.
      * constructor; auto.
      * inversion Hnd' as [|? ? Hx Hxs]; subst. constructor.
        -- rewrite in_app_iff in *. simpl. intros [H|[H|H]]; subst; tauto.
        -- apply IHxs; tauto.
Qed.

End EngineLemmas.

(* ------------------------------------------------------------------------- *)
(** ** Session construction *)

Lemma required_keys_loop_absent (config : dict pyval) (keys : list string) :
  (exists key, In key keys /\ dict_mem config key = false) ->
  exists key,
    In key keys /\ dict_mem config key = false /\
    required_keys_loop keys config
    = Raise (mkExn ValueError
               ("Clave requerida '" ++ key
                  ++ "' no encontrada en la configuración del scraper")).
Proof.
  induction keys as [|k keys IH]; intros [key [Hin Hkey]].
  - destruct Hin.
  - simpl. destruct (dict_mem config k) eqn:Hk; simpl.
    + destruct Hin as [->|Hin]; [congruence|].
      destruct IH as [key' [Hin' [Hkey' Heq]]]; [now exists key|].
      exists key'. auto.
    + exists k. auto.
Qed.

Lemma required_keys_loop_present (config : dict pyval) (keys : list string) :
  (forall key, In key keys -> dict_mem config key = true) ->
  required_keys_loop keys config = Ok tt.
Proof.
  induction keys as [|k keys IH]; intros Hall; simpl; auto.
  rewrite (Hall k) by now left. simpl. apply IH.
  intros key Hin. apply Hall. now right.
Qed.

(** C8. A configuration dictionary that lacks [container_class] or [fields]
    makes the construction of the session raise [ValueError], naming a
    missing key: no session object comes out, so no extraction can run. *)
Theorem init_rejects_missing_key (config : dict pyval) :
  dict_mem config "container_class" = false
  \/ dict_mem config "fields" = false ->
  exists key,
    In key ["container_class"; "fields"] /\ dict_mem config key = false /\
    __init__ config
    = Raise (mkExn ValueError
               ("Clave requerida '" ++ key
                  ++ "' no encontrada en la configuración del scraper")).
Proof.
  intros Habsent.
  destruct (required_keys_loop_absent config ["container_class"; "fields"])
    as [key [Hin [Hkey Heq]]].
  - destruct Habsent as [H|H]; eexists; (split; [|exact H]); simpl; auto.
  - exists key. repeat split; auto.
    unfold __init__, _validate_config. now rewrite Heq.
Qed.

Lemma init_rejects_missing_key_witness :
  exists key,
    In key ["container_class"; "fields"]
    /\ dict_mem [("container_class", PStr "card")] key = false
    /\ __init__ [("container_class", PStr "card")]
       = Raise (mkExn ValueError
                  ("Clave requerida '" ++ key
                     ++ "' no encontrada en la configuración del scraper")).
Proof.
  apply (init_rejects_missing_key [("container_class", PStr "card")]).
  right. reflexivity.
Defined.

(** C9, as the code has it.  Construction tests the two keys for presence
    only: a configuration that has both is accepted whatever their values,
    the empty string and the empty mapping included. *)
Theorem init_accepts_present_keys (config : dict pyval) :
  dict_mem config "container_class" = true ->
  dict_mem config "fields" = true ->
  __init__ config = Ok (WebScraper.mk config).
Proof.
  intros Hcc Hfields. unfold __init__, _validate_config.
  rewrite required_keys_loop_present; [reflexivity|].
  intros key [<-|[<-|[]]]; assumption.
Qed.

Lemma init_accepts_present_keys_witness :
  __init__ [("container_class", PStr ""); ("fields", PDict [])]
  = Ok (WebScraper.mk [("container_class", PStr ""); ("fields", PDict [])]).
Proof.
  apply (init_accepts_present_keys
           [("container_class", PStr ""); ("fields", PDict [])]);
    reflexivity.
Defined.

(** C9, as stated, fails: an empty [container_class] with an empty [fields]
    mapping passes construction. *)
Lemma init_rejects_empty_values_counterexample :
  ~ (forall config : dict pyval,
       dict_get config "container_class" = Some (PStr "")
       \/ dict_get config "fields" = Some (PDict []) ->
       exists e, __init__ config = Raise e).
Proof.
  intros H.
  destruct (H [("container_class", PStr ""); ("fields", PDict [])])
    as [e He].
  - left. reflexivity.
  - discriminate He.
Qed.

(* ------------------------------------------------------------------------- *)
(** ** The path interpreter *)

Section PathInterpreter.
Context {DM : DocumentModel} {UL : UrlLibrary}.

(** C10. A step that is a dictionary whose [type] is neither ["find"] nor
    ["find_all"] (or is absent, which reads as [None]) raises nothing and
    leaves the current element as it is: the loop goes on from the same
    element with the remaining steps. *)
Theorem unrecognized_step_is_skipped
  (element : Element) (d : dict pyval) (step_type : pyval)
  (rest : list pyval) :
  py_get (PDict d) "type" PNone = Ok step_type ->
  step_type <> PStr "find" ->
  step_type <> PStr "find_all" ->
  path_step element (PDict d) = Ok (Some element)
  /\ path_loop (Some element) (PDict d :: rest)
     = path_loop (Some element) rest.
Proof.
  intros Htype Hfind Hfind_all.
  apply py_eq_str_false in Hfind, Hfind_all.
  assert (Hstep : path_step element (PDict d) = Ok (Some element)).
  { unfold path_step. rewrite Htype. simpl.
    destruct (dict_get d "tag"); destruct (dict_get d "class"); simpl;
      now rewrite Hfind, Hfind_all. }
  split; [exact Hstep|]. simpl path_loop. now rewrite Hstep.
Qed.

(** C6. With an empty [path] list (or no [path] key, whose default is the
    empty list) the loop returns the container itself, and the value of the
    field is the one the extraction mode reads from the container: its text
    in text mode, its attribute otherwise. *)
Theorem empty_path_reads_the_container
  (container : Element) (d : dict pyval) (base_url : string) :
  dict_get d "path" = Some (PList []) \/ dict_get d "path" = None ->
  path_loop (Some container) [] = Ok (Some container)
  /\ _extract_field_value container (PDict d) base_url
     = extract_value container (PDict d) base_url
  /\ (dict_get d "extract" = Some (PStr "text") \/ dict_get d "extract" = None ->
      _extract_field_value container (PDict d) base_url
      = rbind (get_text container) (fun text => Ok (PStr text)))
  /\ (forall attribute,
        dict_get d "extract" = Some (PStr attribute) ->
        attribute <> "text" -> attribute <> "href" ->
        _extract_field_value container (PDict d) base_url
        = rbind (get container (PStr attribute))
            (fun value => Ok (if truthy value then value else NA))).
Proof.
  intros Hpath.
  assert (Heq : _extract_field_value container (PDict d) base_url
                = extract_value container (PDict d) base_url).
  { unfold _extract_field_value. simpl.
    destruct Hpath as [-> | ->]; reflexivity. }
  split; [reflexivity|]. split; [exact Heq|]. split.
  - intros Hmode. rewrite Heq. unfold extract_value. simpl.
    destruct Hmode as [-> | ->]; reflexivity.
  - intros attribute Hmode Htext Hhref. rewrite Heq.
    unfold extract_value. simpl. rewrite Hmode. simpl.
    apply String.eqb_neq in Htext, Hhref. now rewrite Htext, Hhref.
Qed.

(** C5. Once a prefix of the path has led to no element, the steps that
    follow are not applied, whatever they are, and the field is ["N/A"]
    whatever the [extract] entry of the field holds. *)
Theorem not_found_ends_the_path
  (container : Element) (field_config path : pyval) (pre rest : list pyval)
  (base_url : string) :
  py_get field_config "path" (PList []) = Ok path ->
  py_iter path = Ok (pre ++ rest) ->
  path_loop (Some container) pre = Ok None ->
  path_loop (Some container) (pre ++ rest) = Ok None
  /\ _extract_field_value container field_config base_url = Ok NA.
Proof.
  intros Hpath Hiter Hpre.
  pose proof (path_loop_short_circuit pre rest _ Hpre) as Hall.
  split; [exact Hall|].
  unfold _extract_field_value. rewrite Hpath. simpl.
  rewrite Hiter. simpl. now rewrite Hall.
Qed.

End PathInterpreter.

(* ------------------------------------------------------------------------- *)
(** ** Indexing the matches of a [find_all] step *)

Lemma list_index_Z_front {A} (l : list A) (i : Z) :
  (0 <= i < Z.of_nat (List.length l))%Z ->
  exists x, nth_error l (Z.to_nat i) = Some x /\ list_index_Z l i = Ok x.
Proof.
  intros Hi. unfold list_index_Z.
  destruct (Z.ltb_spec i 0) as [Hneg|_]; [lia|].
  destruct (Z.ltb_spec i 0) as [Hneg|_]; [lia|].
  destruct (nth_error l (Z.to_nat i)) as [x|] eqn:E; [eauto|].
  apply nth_error_None in E. lia.
Qed.

Lemma list_index_Z_back {A} (l : list A) (i : Z) :
  (- Z.of_nat (List.length l) <= i < 0)%Z ->
  exists x,
    nth_error l (Z.to_nat (Z.of_nat (List.length l) + i)) = Some x
    /\ list_index_Z l i = Ok x.
Proof.
  intros Hi. unfold list_index_Z.
  destruct (Z.ltb_spec i 0) as [_|Hpos]; [|lia].
  destruct (Z.ltb_spec (Z.of_nat (List.length l) + i) 0) as [Hneg|_]; [lia|].
  destruct (nth_error l (Z.to_nat (Z.of_nat (List.length l) + i)))
    as [x|] eqn:E; [eauto|].
  apply nth_error_None in E. lia.
Qed.

Section FindAll.
Context {DM : DocumentModel}.

(** C3, as the code has it.  For a [find_all] step with an integer index
    [i] (0 when the step has none) over [n] matches: [0 <= i < n] selects
    the match at [i]; [i >= n] leads to no element, without an error; and
    [-n <= i < 0] selects the match at [n + i], counting from the end. *)
Theorem find_all_step_indexes_matches
  (element : Element) (d : dict pyval) (tag class_name : pyval)
  (elements : list Element) (i : Z) (rest : list pyval) :
  dict_get d "type" = Some (PStr "find_all") ->
  py_get (PDict d) "tag" PNone = Ok tag ->
  py_get (PDict d) "class" PNone = Ok class_name ->
  (if truthy class_name
   then find_all element tag (Some class_name)
   else find_all element tag None) = Ok elements ->
  py_get (PDict d) "index" (PInt 0) = Ok (PInt i) ->
  ((0 <= i < Z.of_nat (List.length elements))%Z ->
   exists x,
     nth_error elements (Z.to_nat i) = Some x
     /\ path_loop (Some element) (PDict d :: rest) = path_loop (Some x) rest)
  /\ ((Z.of_nat (List.length elements) <= i)%Z ->
      path_step element (PDict d) = Ok None
      /\ path_loop (Some element) (PDict d :: rest) = Ok None)
  /\ ((- Z.of_nat (List.length elements) <= i < 0)%Z ->
      exists x,
        nth_error elements
          (Z.to_nat (Z.of_nat (List.length elements) + i)) = Some x
        /\ path_loop (Some element) (PDict d :: rest) = path_loop (Some x) rest).
Proof.
  intros Htype Htag Hclass Hquery Hindex.
  assert (Hstep : path_step element (PDict d)
                  = match elements with
                    | [] => Ok None
                    | _ :: _ =>
                        if Z.ltb i (Z.of_nat (List.length elements))
                        then rbind (list_index_Z elements i)
                               (fun x => Ok (Some x))
                        else Ok None
                    end).
  { assert (Htype' : py_get (PDict d) "type" PNone = Ok (PStr "find_all"))
      by (simpl; now rewrite Htype).
    unfold path_step. rewrite Htype', Htag, Hclass. cbn [rbind].
    change (py_eq_str (PStr "find_all") "find") with false.
    change (py_eq_str (PStr "find_all") "find_all") with true.
    cbv iota. rewrite Hquery, Hindex. cbn [rbind].
    destruct elements; reflexivity. }
  simpl path_loop. rewrite Hstep. clear Hstep.
  split; [|split].
  - intros Hi. destruct (list_index_Z_front elements i Hi) as [x [Hnth Hx]].
    exists x. split; [exact Hnth|].
    destruct elements as [|e es]; [simpl in Hi; lia|].
    destruct (Z.ltb_spec i (Z.of_nat (List.length (e :: es)))); [|lia].
    rewrite Hx. reflexivity.
  - intros Hi.
    assert (Hnone : match elements with
                    | [] => Ok None
                    | _ :: _ =>
                        if Z.ltb i (Z.of_nat (List.length elements))
                        then rbind (list_index_Z elements i)
                               (fun x => Ok (Some x))
                        else Ok None
                    end = Ok None).
    { destruct elements as [|e es]; [reflexivity|].
      destruct (Z.ltb_spec i (Z.of_nat (List.length (e :: es)))); [lia|].
      reflexivity. }
    rewrite Hnone. split; [reflexivity|]. simpl. destruct rest; reflexivity.
  - intros Hi. destruct (list_index_Z_back elements i Hi) as [x [Hnth Hx]].
    exists x. split; [exact Hnth|].
    destruct elements as [|e es]; [simpl in Hi; lia|].
    destruct (Z.ltb_spec i (Z.of_nat (List.length (e :: es)))); [|lia].
    rewrite Hx. reflexivity.
Qed.

End FindAll.

(* ------------------------------------------------------------------------- *)
(** ** Link extraction *)

Section Href.
Context {DM : DocumentModel} {UL : UrlLibrary}.

Lemma href_mode_value
  (container element : Element) (field_config path relative_link : pyval)
  (steps : list pyval) (base_url : string) :
  py_get field_config "path" (PList []) = Ok path ->
  py_iter path = Ok steps ->
  path_loop (Some container) steps = Ok (Some element) ->
  py_get field_config "extract" (PStr "text") = Ok (PStr "href") ->
  get element (PStr "href") = Ok relative_link ->
  _extract_field_value container field_config base_url
  = if truthy relative_link then urljoin base_url relative_link else Ok NA.
Proof.
  intros Hpath Hiter Hloop Hmode Hget.
  unfold _extract_field_value. rewrite Hpath. cbn [rbind].
  rewrite Hiter. cbn [rbind]. rewrite Hloop. cbn [rbind].
  unfold extract_value. rewrite Hmode. cbn [rbind].
  change (py_eq_str (PStr "href") "text") with false.
  change (py_eq_str (PStr "href") "href") with true.
  cbv iota. now rewrite Hget.
Qed.

End Href.

(** C4, as the code has it.  In href mode, at the element the path leads to:
    an [href] attribute that is present and not empty is returned as
    [urljoin(base_url, href)]; an absent or empty one gives ["N/A"].  On the
    sample library, with base [https://shop.example/cat/], the link
    [item/42] gives [https://shop.example/cat/item/42] and the absolute
    link [https://cdn.example/x] comes back unchanged. *)
Theorem href_mode_joins_nonempty_link
  {DM : DocumentModel} {UL : UrlLibrary}
  (container element : Element) (field_config path relative_link : pyval)
  (steps : list pyval) (base_url : string) :
  py_get field_config "path" (PList []) = Ok path ->
  py_iter path = Ok steps ->
  path_loop (Some container) steps = Ok (Some element) ->
  py_get field_config "extract" (PStr "text") = Ok (PStr "href") ->
  get element (PStr "href") = Ok relative_link ->
  (truthy relative_link = true ->
   _extract_field_value container field_config base_url
   = urljoin base_url relative_link)
  /\ (relative_link = PNone \/ relative_link = PStr "" ->
      _extract_field_value container field_config base_url = Ok NA)
  /\ @_extract_field_value Sample.document_model Sample.url_library
       (Sample.Tag "a" [("href", PStr "item/42")] [])
       (PDict [("extract", PStr "href")]) "https://shop.example/cat/"
     = Ok (PStr "https://shop.example/cat/item/42")
  /\ @_extract_field_value Sample.document_model Sample.url_library
       (Sample.Tag "a" [("href", PStr "https://cdn.example/x")] [])
       (PDict [("extract", PStr "href")]) "https://shop.example/cat/"
     = Ok (PStr "https://cdn.example/x").
Proof.
  intros Hpath Hiter Hloop Hmode Hget.
  pose proof (href_mode_value container element field_config path
                relative_link steps base_url Hpath Hiter Hloop Hmode Hget)
    as Heq.
  split; [|split; [|split]].
  - intros Htruthy. now rewrite Heq, Htruthy.
  - intros [-> | ->]; now rewrite Heq.
  - vm_compute. reflexivity.
  - vm_compute. reflexivity.
Qed.

(* ------------------------------------------------------------------------- *)
(** ** The container scan *)

Section Scan.
Context {DM : DocumentModel} {UL : UrlLibrary}.

Lemma record_of_keys
  (container : Element) (base_url : string) (fields : dict pyval) :
  dict_keys (record_of container base_url fields) = dict_keys fields.
Proof.
  unfold dict_keys, record_of. rewrite map_map. reflexivity.
Qed.

Lemma any_value_record_of
  (container : Element) (base_url : string) (fields : dict pyval) :
  any_value (record_of container base_url fields) = false
  <-> forall name fc,
        In (name, fc) fields -> field_outcome container fc base_url = NA.
Proof.
  unfold any_value, dict_values, record_of.
  induction fields as [|[n c] fields IH]; simpl.
  - split; [intros _ ? ? []|reflexivity].
  - rewrite orb_false_iff, IH, negb_false_iff, py_eq_str_true. split.
    + intros [Hhead Htail] name fc [Heq|Hin].
      * injection Heq as <- <-. exact Hhead.
      * eapply Htail, Hin.
    + intros Hall. split.
      * apply (Hall n). now left.
      * intros name fc Hin. apply (Hall name). now right.
Qed.

Lemma record_of_get
  (container : Element) (base_url : string) (fields : dict pyval)
  (name : string) (fc : pyval) :
  NoDup (dict_keys fields) ->
  In (name, fc) fields ->
  dict_get (record_of container base_url fields) name
  = Some (field_outcome container fc base_url).
Proof.
  intros Hnd Hin. apply dict_get_In.
  - now rewrite record_of_keys.
  - unfold record_of.
    apply (in_map (fun item =>
                     (fst item, field_outcome container (snd item) base_url)))
      in Hin.
    exact Hin.
Qed.

Lemma extract_products_spec
  (self : WebScraper.t) (soup : Element) (base_url : string)
  (fields : dict pyval) (containers : list Element) (w : world) :
  dict_get (config self) "fields" = Some (PDict fields) ->
  find_all soup (PStr "div") (Some (container_class_of self)) = Ok containers ->
  _extract_products self soup base_url w
  = (Ok (filter any_value
           (map (fun c => assign_fields c base_url fields []) containers)),
     mkWorld (stdout w
                ++ flat_map (fun c => field_warnings c base_url fields)
                     containers)
             (clock w) (ticks w)).
Proof.
  intros Hfields Hfind. unfold _extract_products, container_class_of in *.
  unfold bind, lift. rewrite Hfind.
  destruct containers as [|c cs].
  - simpl. unfold ret. now rewrite world_eta.
  - now rewrite (containers_loop_spec self base_url fields Hfields).
Qed.

Lemma extract_products_records
  (self : WebScraper.t) (soup : Element) (base_url : string)
  (products : list (dict pyval)) (w w' : world) (product : dict pyval) :
  _extract_products self soup base_url w = (Ok products, w') ->
  In product products ->
  exists fields container,
    dict_get (config self) "fields" = Some (PDict fields)
    /\ product = assign_fields container base_url fields [].
Proof.
  unfold _extract_products. unfold bind at 1, lift at 1.
  destruct (find_all soup (PStr "div") _) as [containers|e]; [|discriminate].
  destruct containers as [|c cs].
  - unfold ret. intros Heq. injection Heq as <- _. intros [].
  - intros Hloop Hin.
    destruct (containers_loop_needs_fields _ _ _ _ _ _ _ _ Hloop)
      as [fields Hfields].
    rewrite (containers_loop_spec self base_url fields Hfields) in Hloop.
    injection Hloop as <- _.
    change (In product
              (filter any_value
                 (map (fun c => assign_fields c base_url fields [])
                    (c :: cs)))) in Hin.
    apply filter_In in Hin. destruct Hin as [Hin _].
    apply in_map_iff in Hin. destruct Hin as [container [<- _]].
    eauto.
Qed.

End Scan.

(** C1. Over the containers the document yields, the scan returns, in
    order, the records that hold at least one value other than ["N/A"]: the
    record of a container is left out exactly when every configured field
    came out as ["N/A"], and a record that is kept has every configured key,
    with ["N/A"] at the fields whose extraction raised. *)
Theorem scan_drops_exactly_the_all_sentinel_records
  {DM : DocumentModel} {UL : UrlLibrary}
  (self : WebScraper.t) (soup : Element) (base_url : string)
  (fields : dict pyval) (containers : list Element) (w : world) :
  dict_get (config self) "fields" = Some (PDict fields) ->
  NoDup (dict_keys fields) ->
  find_all soup (PStr "div") (Some (container_class_of self)) = Ok containers ->
  exists products w',
    _extract_products self soup base_url w = (Ok products, w')
    /\ products
       = filter any_value
           (map (fun c => record_of c base_url fields) containers)
    /\ (forall container,
          In container containers ->
          (~ In (record_of container base_url fields) products
           <-> forall name fc,
                 In (name, fc) fields ->
                 field_outcome container fc base_url = NA))
    /\ (forall product,
          In product products ->
          exists container,
            In container containers
            /\ product = record_of container base_url fields
            /\ dict_keys product = dict_keys fields
            /\ (forall name fc,
                  In (name, fc) fields ->
                  dict_get product name
                  = Some (field_outcome container fc base_url))
            /\ (forall name fc e,
                  In (name, fc) fields ->
                  _extract_field_value container fc base_url = Raise e ->
                  dict_get product name = Some NA)).
Proof.
  intros Hfields Hnd Hfind.
  assert (Hrec : forall c, assign_fields c base_url fields []
                           = record_of c base_url fields).
  { intros c. now rewrite assign_fields_distinct. }
  eexists. eexists. split.
  { rewrite (extract_products_spec self soup base_url fields containers w
               Hfields Hfind).
    rewrite (map_ext _ _ Hrec). reflexivity. }
  split; [reflexivity|]. split.
  - intros container Hin. rewrite <- any_value_record_of, filter_In. split.
    + intros Hout.
      destruct (any_value (record_of container base_url fields)) eqn:E; auto.
      exfalso. apply Hout. split; [|reflexivity].
      apply in_map_iff. eauto.
    + intros Hfalse [_ Htrue]. congruence.
  - intros product Hin. apply filter_In in Hin. destruct Hin as [Hin _].
    apply in_map_iff in Hin. destruct Hin as [container [<- Hin]].
    exists container. split; [exact Hin|]. split; [reflexivity|].
    split; [apply record_of_keys|]. split.
    + intros name fc Hfield. now apply record_of_get.
    + intros name fc e Hfield Hraise.
      rewrite (record_of_get container base_url fields name fc Hnd Hfield).
      unfold field_outcome. now rewrite Hraise.
Qed.

(** C2. The extraction of a field inside the scan never raises.  When
    [_extract_field_value] raises, whatever the exception, the field is set
    to ["N/A"] and one warning naming it is printed; the loop over the
    fields always completes, each field receiving its own outcome; and the
    loop over the containers always completes, each container contributing
    the record of its own fields. *)
Theorem field_failures_are_isolated
  {DM : DocumentModel} {UL : UrlLibrary}
  (self : WebScraper.t) (base_url : string) (fields : dict pyval) :
  dict_get (config self) "fields" = Some (PDict fields) ->
  (forall container name field_config e product w,
     _extract_field_value container field_config base_url = Raise e ->
     fields_loop container base_url [(name, field_config)] product w
     = (Ok (dict_set product name NA),
        mkWorld (stdout w
                   ++ [("Advertencia: Error extrayendo campo '" ++ name
                          ++ "': " ++ exn_msg e)%string])
                (clock w) (ticks w)))
  /\ (forall container name field_config value product w,
        _extract_field_value container field_config base_url = Ok value ->
        fields_loop container base_url [(name, field_config)] product w
        = (Ok (dict_set product name value), w))
  /\ (forall container before name field_config after product w,
        fields = before ++ (name, field_config) :: after ->
        exists w',
          fields_loop container base_url fields product w
          = (Ok (assign_fields container base_url after
                   (dict_set (assign_fields container base_url before product)
                      name (field_outcome container field_config base_url))),
             w'))
  /\ (forall containers products w,
        exists w',
          containers_loop self base_url containers products w
          = (Ok (products
                   ++ filter any_value
                        (map (fun c => assign_fields c base_url fields [])
                           containers)),
             w')).
Proof.
  intros Hfields. split; [|split; [|split]].
  - intros container name fc e product w Hraise.
    rewrite fields_loop_spec. unfold assign_fields, field_warnings.
    simpl. unfold field_outcome. rewrite Hraise. reflexivity.
  - intros container name fc value product w Hok.
    rewrite fields_loop_spec. unfold assign_fields, field_warnings.
    simpl. unfold field_outcome. rewrite Hok. simpl.
    now rewrite world_eta.
  - intros container before name fc after product w ->.
    rewrite fields_loop_spec. eexists.
    unfold assign_fields. rewrite fold_left_app. reflexivity.
  - intros containers products w.
    rewrite (containers_loop_spec self base_url fields Hfields).
    eexists. reflexivity.
Qed.

(* ------------------------------------------------------------------------- *)
(** ** Provenance *)

Section Provenance.
Context {DM : DocumentModel} {UL : UrlLibrary}.

Lemma metadata_loop_records (self : WebScraper.t) (url : string) :
  forall (products out : list (dict pyval)) (w w' : world) (stamped : dict pyval),
    metadata_loop self url products w = (Ok out, w') ->
    In stamped out ->
    exists product now,
      In product products
      /\ stamped
         = dict_set
             (dict_set (dict_set product "_source_url" (PStr url))
                "_scraped_at" (PStr now))
             "_config_used" (config_used self).
Proof.
  induction products as [|product products IH]; intros out w w' stamped.
  - simpl. unfold ret. intros Heq. injection Heq as <- _. intros [].
  - simpl. unfold bind at 1, strftime at 1.
    unfold bind at 1, lift at 1.
    assert (Hcu : (if dict_mem (config self) "name"
                   then dict_getitem (config self) "name"
                   else Ok (PStr "default_config")) = Ok (config_used self)).
    { unfold dict_mem, dict_getitem, config_used.
      destruct (dict_get (config self) "name"); reflexivity. }
    rewrite Hcu. unfold bind at 1.
    destruct (metadata_loop self url products _) as [[rest|e] w1] eqn:Hrest;
      [|discriminate].
    unfold ret. intros Heq. injection Heq as <- _. intros [<-|Hin].
    + exists product, (clock w (ticks w)). split; [now left|reflexivity].
    + destruct (IH _ _ _ _ Hrest Hin) as [p [now [Hp Heq]]].
      exists p, now. split; [now right|exact Heq].
Qed.

Lemma scrape_products_inversion
  (self : WebScraper.t) (response : string -> result Element) (url : string)
  (w w' : world) (products : list (dict pyval)) :
  scrape_products self response url w = (Ok products, w') ->
  exists soup extracted w1,
    response url = Ok soup
    /\ _extract_products self soup url w = (Ok extracted, w1)
    /\ metadata_loop self url extracted w1 = (Ok products, w').
Proof.
  unfold scrape_products, try_except.
  unfold bind at 1, lift at 1.
  destruct (response url) as [soup|e].
  - unfold bind at 1.
    destruct (_extract_products self soup url w) as [[extracted|e] w1] eqn:E.
    + destruct (metadata_loop self url extracted w1) as [[out|e] w2] eqn:E'.
      * intros Heq. injection Heq as <- <-. eauto 6.
      * destruct (exn_cls e); discriminate.
    + destruct (exn_cls e); discriminate.
  - destruct (exn_cls e); discriminate.
Qed.

End Provenance.

(** C7. Every record [scrape_products] returns has as keys exactly the
    configured field names and the three provenance keys, each once; its
    [_config_used] is the configuration's [name] when the key is there and
    ["default_config"] when it is not, and its [_source_url] is the URL. *)
Theorem scraped_record_has_fields_and_provenance
  {DM : DocumentModel} {UL : UrlLibrary}
  (self : WebScraper.t) (response : string -> result Element) (url : string)
  (w w' : world) (products : list (dict pyval)) (product : dict pyval) :
  scrape_products self response url w = (Ok products, w') ->
  In product products ->
  exists fields,
    dict_get (config self) "fields" = Some (PDict fields)
    /\ (forall k,
          In k (dict_keys product)
          <-> In k (dict_keys fields) \/ In k provenance_keys)
    /\ NoDup (dict_keys product)
    /\ dict_get product "_config_used"
       = Some (match dict_get (config self) "name" with
               | Some name => name
               | None => PStr "default_config"
               end)
    /\ dict_get product "_source_url" = Some (PStr url).
Proof.
  intros Hscrape Hin.
  destruct (scrape_products_inversion _ _ _ _ _ _ Hscrape)
    as [soup [extracted [w1 [_ [Hextract Hmeta]]]]].
  destruct (metadata_loop_records _ _ _ _ _ _ _ Hmeta Hin)
    as [bare [now [Hbare ->]]].
  destruct (extract_products_records _ _ _ _ _ _ _ Hextract Hbare)
    as [fields [container [Hfields ->]]].
  exists fields. split; [exact Hfields|]. split; [|split; [|split]].
  - intros k. rewrite !dict_keys_set, assign_fields_keys.
    unfold provenance_keys. simpl. intuition congruence.
  - repeat apply dict_set_NoDup. apply assign_fields_NoDup. constructor.
  - apply dict_get_set_same.
  - rewrite !dict_get_set_other by discriminate. apply dict_get_set_same.
Qed.

(* ------------------------------------------------------------------------- *)
(** ** The engine run on the sample pages *)

Section Runs.
Import Sample Shop.

(** The end-to-end scenario: the card with content gives one record, the
    empty card is dropped. *)
Example scrape_two_cards :
  fst (scrape_products (WebScraper.mk card_config) (online page) base_url start)
  = Ok [[("title", PStr "A");
         ("link", PStr "https://shop.example/p/1");
         ("_source_url", PStr base_url);
         ("_scraped_at", PStr "2024-05-01 12:00:00");
         ("_config_used", PStr "default_config")]].
Proof. vm_compute. reflexivity. Qed.

Example faulty_field_outcomes :
  map (fun item => _extract_field_value two_paragraphs (snd item) base_url)
      faulty_fields
  = [Raise (mkExn TypeError "'int' object is not iterable");
     Ok (PStr "second");
     Raise (mkExn IndexError "list index out of range");
     Raise (mkExn TypeError "unhashable type: 'list'")].
Proof. vm_compute. reflexivity. Qed.

Example scan_faulty_page :
  _extract_products (WebScraper.mk faulty_config) paragraphs_page base_url start
  = (Ok [[("broken_path", NA); ("text", PStr "second");
          ("far_back", NA); ("odd_mode", NA)]],
     mkWorld
       ["Advertencia: Error extrayendo campo 'broken_path': 'int' object is not iterable";
        "Advertencia: Error extrayendo campo 'far_back': list index out of range";
        "Advertencia: Error extrayendo campo 'odd_mode': unhashable type: 'list'";
        "Advertencia: Error extrayendo campo 'broken_path': 'int' object is not iterable";
        "Advertencia: Error extrayendo campo 'odd_mode': unhashable type: 'list'"]
       (clock start) 0).
Proof. vm_compute. reflexivity. Qed.

End Runs.

(* ------------------------------------------------------------------------- *)
(** ** The properties at the sample pages *)

Section Instances.
Import Sample Shop.

Lemma scan_drops_exactly_the_all_sentinel_records_witness :
  exists products w',
    _extract_products (DM := document_model)
      (WebScraper.mk card_config) page base_url start
    = (Ok products, w')
    /\ products
       = filter any_value
           (map (fun c => record_of c base_url card_fields)
              [full_card; empty_card])
    /\ ~ In (record_of empty_card base_url card_fields) products.
Proof.
  destruct (scan_drops_exactly_the_all_sentinel_records
              (DM := document_model) (WebScraper.mk card_config) page
              base_url card_fields
              [full_card; empty_card] start)
    as [products [w' [Hrun [Hlist [Hdrop _]]]]].
  - reflexivity.
  - repeat constructor; simpl; intuition discriminate.
  - reflexivity.
  - exists products, w'. split; [exact Hrun|]. split; [exact Hlist|].
    apply Hdrop.
    + right. left. reflexivity.
    + intros name fc [Heq|[Heq|[]]]; injection Heq as <- <-; reflexivity.
Defined.

Lemma field_failures_are_isolated_witness :
  (exists w',
     fields_loop (DM := document_model)
       two_paragraphs base_url faulty_fields [] start
     = (Ok (assign_fields two_paragraphs base_url
              [("far_back", PDict [("path", PList [find_all_step "p" (-5)])]);
               ("odd_mode", PDict [("extract", PList [PStr "id"])])]
              (dict_set
                 (assign_fields two_paragraphs base_url
                    [("broken_path", PDict [("path", PInt 3)])] [])
                 "text" (PStr "second"))),
        w'))
  /\ (exists w',
        containers_loop (DM := document_model)
          (WebScraper.mk faulty_config) base_url
          [two_paragraphs; empty_card] [] start
        = (Ok (filter any_value
                 (map (fun c => assign_fields c base_url faulty_fields [])
                    [two_paragraphs; empty_card])),
           w')).
Proof.
  destruct (field_failures_are_isolated
              (DM := document_model) (WebScraper.mk faulty_config)
              base_url faulty_fields)
    as [_ [_ [Hfields Hcontainers]]].
  - reflexivity.
  - split.
    + apply (Hfields two_paragraphs
               [("broken_path", PDict [("path", PInt 3)])]
               "text" (PDict [("path", PList [find_all_step "p" 1])])
               [("far_back", PDict [("path", PList [find_all_step "p" (-5)])]);
                ("odd_mode", PDict [("extract", PList [PStr "id"])])]
               [] start).
      reflexivity.
    + apply (Hcontainers [two_paragraphs; empty_card] [] start).
Defined.

Lemma find_all_step_indexes_matches_witness :
  (exists x,
     nth_error [Tag "p" [] [Text "first"]; Tag "p" [] [Text "second"]] 1
     = Some x
     /\ path_loop (DM := document_model)
          (Some two_paragraphs) [find_all_step "p" (-1)]
        = path_loop (Some x) []).
Proof.
  destruct (find_all_step_indexes_matches
              (DM := document_model) two_paragraphs
              [("type", PStr "find_all"); ("tag", PStr "p");
               ("index", PInt (-1))]
              (PStr "p") PNone
              [Tag "p" [] [Text "first"]; Tag "p" [] [Text "second"]]
              (-1) [])
    as [_ [_ Hback]];
    [reflexivity | reflexivity | reflexivity | reflexivity | reflexivity |].
  apply Hback. simpl. lia.
Defined.

(** C3, as stated, fails: over two matches the index -1 selects the second
    match instead of leading to no element. *)
Lemma find_all_negative_index_counterexample :
  ~ (forall (DM : DocumentModel) (element : Element) (d : dict pyval)
            (tag class_name : pyval) (elements : list Element) (i : Z),
       dict_get d "type" = Some (PStr "find_all") ->
       py_get (PDict d) "tag" PNone = Ok tag ->
       py_get (PDict d) "class" PNone = Ok class_name ->
       (if truthy class_name
        then find_all element tag (Some class_name)
        else find_all element tag None) = Ok elements ->
       py_get (PDict d) "index" (PInt 0) = Ok (PInt i) ->
       (i < 0 \/ Z.of_nat (List.length elements) <= i)%Z ->
       path_step element (PDict d) = Ok None).
Proof.
  intros H.
  specialize (H document_model two_paragraphs
                [("type", PStr "find_all"); ("tag", PStr "p");
                 ("index", PInt (-1))]
                (PStr "p") PNone
                [Tag "p" [] [Text "first"]; Tag "p" [] [Text "second"]]
                (-1)%Z).
  assert (Hstep : path_step (DM := document_model)
                    two_paragraphs (find_all_step "p" (-1))
                  = Ok (Some (Tag "p" [] [Text "second"])))
    by (vm_compute; reflexivity).
  unfold find_all_step in Hstep. rewrite H in Hstep; try reflexivity.
  - discriminate Hstep.
  - left. lia.
Qed.

Lemma href_mode_joins_nonempty_link_witness :
  _extract_field_value (DM := document_model) full_card
    (PDict [("path", PList [find_step "a"]); ("extract", PStr "href")])
    base_url
  = urljoin base_url (PStr "/p/1").
Proof.
  destruct (href_mode_joins_nonempty_link
              (DM := document_model) full_card
              (Tag "a" [("href", PStr "/p/1")] [])
              (PDict [("path", PList [find_step "a"]);
                      ("extract", PStr "href")])
              (PList [find_step "a"]) (PStr "/p/1")
              [find_step "a"] base_url)
    as [Hjoin _];
    [reflexivity | reflexivity | reflexivity | reflexivity | reflexivity |].
  apply Hjoin. reflexivity.
Defined.

(** C4, as stated, fails: an [href] attribute that is present and empty
    gives ["N/A"], where resolving it against the base would give the
    base. *)
Lemma href_empty_attribute_counterexample :
  ~ (forall (DM : DocumentModel) (UL : UrlLibrary)
            (container element : Element)
            (field_config path relative_link : pyval)
            (steps : list pyval) (base_url : string),
       py_get field_config "path" (PList []) = Ok path ->
       py_iter path = Ok steps ->
       path_loop (Some container) steps = Ok (Some element) ->
       py_get field_config "extract" (PStr "text") = Ok (PStr "href") ->
       get element (PStr "href") = Ok relative_link ->
       relative_link <> PNone ->
       _extract_field_value container field_config base_url
       = urljoin base_url relative_link).
Proof.
  intros H.
  specialize (H document_model url_library
                (Tag "a" [("href", PStr "")] [])
                (Tag "a" [("href", PStr "")] [])
                (PDict [("extract", PStr "href")])
                (PList []) (PStr "") [] base_url).
  assert (Hcode : _extract_field_value (DM := document_model)
                    (Tag "a" [("href", PStr "")] [])
                    (PDict [("extract", PStr "href")]) base_url
                  = Ok NA)
    by (vm_compute; reflexivity).
  assert (Hjoin : urljoin base_url (PStr "") = Ok (PStr base_url))
    by (vm_compute; reflexivity).
  rewrite H, Hjoin in Hcode; try reflexivity.
  - discriminate Hcode.
  - discriminate.
Qed.

Lemma not_found_ends_the_path_witness :
  path_loop (DM := document_model) (Some empty_card)
    ([find_step "h3"] ++ [find_step "a"])
  = Ok None
  /\ _extract_field_value (DM := document_model) empty_card
       (PDict [("path", PList [find_step "h3"; find_step "a"]);
               ("extract", PStr "href")])
       base_url
     = Ok NA.
Proof.
  apply (not_found_ends_the_path (DM := document_model) empty_card
           (PDict [("path", PList [find_step "h3"; find_step "a"]);
                   ("extract", PStr "href")])
           (PList [find_step "h3"; find_step "a"])
           [find_step "h3"] [find_step "a"] base_url);
    reflexivity.
Defined.

Lemma empty_path_reads_the_container_witness :
  _extract_field_value (DM := document_model)
    (Tag "a" [("href", PStr "/p/1")] [Text "more"])
    (PDict [("path", PList []); ("extract", PStr "text")])
    base_url
  = Ok (PStr "more").
Proof.
  destruct (empty_path_reads_the_container
              (DM := document_model)
              (Tag "a" [("href", PStr "/p/1")] [Text "more"])
              [("path", PList []); ("extract", PStr "text")]
              base_url)
    as [_ [_ [Htext _]]].
  - left. reflexivity.
  - rewrite Htext; [reflexivity|]. left. reflexivity.
Defined.

Lemma scraped_record_has_fields_and_provenance_witness :
  exists fields,
    dict_get card_config "fields" = Some (PDict fields)
    /\ (forall k,
          In k ["title"; "link"; "_source_url"; "_scraped_at"; "_config_used"]
          <-> In k (dict_keys fields) \/ In k provenance_keys).
Proof.
  destruct (scraped_record_has_fields_and_provenance
              (DM := document_model) (WebScraper.mk card_config) (online page)
              base_url start (mkWorld [] (clock start) 1)
              [[("title", PStr "A");
                ("link", PStr "https://shop.example/p/1");
                ("_source_url", PStr base_url);
                ("_scraped_at", PStr "2024-05-01 12:00:00");
                ("_config_used", PStr "default_config")]]
              [("title", PStr "A");
               ("link", PStr "https://shop.example/p/1");
               ("_source_url", PStr base_url);
               ("_scraped_at", PStr "2024-05-01 12:00:00");
               ("_config_used", PStr "default_config")])
    as [fields [Hfields [Hkeys _]]].
  - vm_compute. reflexivity.
  - left. reflexivity.
  - exists fields. split; [exact Hfields|exact Hkeys].
Defined.

Lemma unrecognized_step_is_skipped_witness :
  path_step (DM := document_model) full_card
    (PDict [("type", PStr "select"); ("tag", PStr "h3")])
  = Ok (Some full_card)
  /\ path_loop (DM := document_model) (Some full_card)
       [PDict [("type", PStr "select"); ("tag", PStr "h3")]; find_step "h3"]
     = path_loop (Some full_card) [find_step "h3"].
Proof.
  apply (unrecognized_step_is_skipped (DM := document_model) full_card
           [("type", PStr "select"); ("tag", PStr "h3")]
           (PStr "select") [find_step "h3"]).
  - reflexivity.
  - discriminate.
  - discriminate.
Defined.

End Instances.

(* ------------------------------------------------------------------------- *)
(** ** Further properties of the path interpreter *)

Section PathFurther.
Context {DM : DocumentModel} {UL : UrlLibrary}.

(** X1. Walking a path made of two parts is walking the first part and then
    the second from the element reached; an exception or a missing element
    in the first part ends the walk. *)
Theorem path_loop_composes (first second : list pyval) :
  forall element,
    path_loop element (first ++ second)
    = rbind (path_loop element first)
        (fun reached => path_loop reached second).
Proof.
  induction first as [|step first IH]; intros element.
  - reflexivity.
  - destruct element as [el|].
    + simpl. destruct (path_step el step); simpl; [apply IH|reflexivity].
    + simpl. now rewrite path_loop_None.
Qed.

Lemma find_all_step_value
  (element : Element) (d : dict pyval) (tag class_name index : pyval)
  (elements : list Element) :
  dict_get d "type" = Some (PStr "find_all") ->
  py_get (PDict d) "tag" PNone = Ok tag ->
  py_get (PDict d) "class" PNone = Ok class_name ->
  (if truthy class_name
   then find_all element tag (Some class_name)
   else find_all element tag None) = Ok elements ->
  py_get (PDict d) "index" (PInt 0) = Ok index ->
  path_step element (PDict d)
  = match elements with
    | [] => Ok None
    | _ :: _ =>
        rbind (py_int_gt (List.length elements) index)
          (fun in_range =>
             if in_range
             then rbind (py_list_index elements index) (fun x => Ok (Some x))
             else Ok None)
    end.
Proof.
  intros Htype Htag Hclass Hquery Hindex.
  assert (Htype' : py_get (PDict d) "type" PNone = Ok (PStr "find_all"))
    by (simpl; now rewrite Htype).
  unfold path_step. rewrite Htype', Htag, Hclass. cbn [rbind].
  change (py_eq_str (PStr "find_all") "find") with false.
  change (py_eq_str (PStr "find_all") "find_all") with true.
  cbv iota. rewrite Hquery, Hindex. cbn [rbind].
  destruct elements; reflexivity.
Qed.


(** X3. The index of a [find_all] step is looked at only when something
    matched.  With no match the step leads to no element whatever the
    [index] entry holds; with a match, an index that is not a number makes
    the step raise [TypeError]. *)
Theorem find_all_reads_index_only_on_a_match
  (element : Element) (d : dict pyval) (tag class_name index : pyval)
  (elements : list Element) :
  dict_get d "type" = Some (PStr "find_all") ->
  py_get (PDict d) "tag" PNone = Ok tag ->
  py_get (PDict d) "class" PNone = Ok class_name ->
  (if truthy class_name
   then find_all element tag (Some class_name)
   else find_all element tag None) = Ok elements ->
  py_get (PDict d) "index" (PInt 0) = Ok index ->
  (elements = [] -> path_step element (PDict d) = Ok None)
  /\ (elements <> [] ->
      match index with
      | PNone | PStr _ | PList _ | PDict _ => True
      | _ => False
      end ->
      path_step element (PDict d)
      = Raise (mkExn TypeError
                 ("'>' not supported between instances of 'int' and '"
                    ++ type_name index ++ "'"))).
Proof.
  intros Htype Htag Hclass Hquery Hindex.
  rewrite (find_all_step_value _ _ _ _ _ _ Htype Htag Hclass Hquery Hindex).
  split.
  - intros ->. reflexivity.
  - intros Hmatch Hkind. destruct elements as [|e es]; [congruence|].
    destruct index; try contradiction; reflexivity.
Qed.

(** X4. In text mode the text of the element found is the value of the field
    as it is, the empty text included: the field counts as unresolved only
    when the text itself reads ["N/A"]. *)
Theorem text_mode_returns_the_text
  (container element : Element) (field_config path : pyval)
  (steps : list pyval) (text base_url : string) :
  py_get field_config "path" (PList []) = Ok path ->
  py_iter path = Ok steps ->
  path_loop (Some container) steps = Ok (Some element) ->
  py_get field_config "extract" (PStr "text") = Ok (PStr "text") ->
  get_text element = Ok text ->
  _extract_field_value container field_config base_url = Ok (PStr text)
  /\ (field_outcome container field_config base_url = NA <-> text = "N/A")
  /\ forall product name,
       text <> "N/A" ->
       any_value
         (dict_set product name
            (field_outcome container field_config base_url)) = true.
Proof.
  intros Hpath Hiter Hloop Hmode Htext.
  assert (Hfield : _extract_field_value container field_config base_url
                   = Ok (PStr text)).
  { unfold _extract_field_value. rewrite Hpath. cbn [rbind].
    rewrite Hiter. cbn [rbind]. rewrite Hloop. cbn [rbind].
    unfold extract_value. rewrite Hmode. cbn [rbind].
    change (py_eq_str (PStr "text") "text") with true. cbv iota.
    now rewrite Htext. }
  split; [exact Hfield|].
  unfold field_outcome. rewrite Hfield. split.
  - unfold NA. split; intros H; [now injection H|now subst].
  - intros product name Hne. unfold any_value, dict_values.
    apply existsb_exists. exists (PStr text). split.
    + apply in_map_iff. exists (name, PStr text). split; [reflexivity|].
      clear. induction product as [|[k v] product IH]; simpl.
      * now left.
      * destruct (String.eqb k name) eqn:E.
        -- apply String.eqb_eq in E. subst. now left.
        -- now right.
    + simpl. apply negb_true_iff. now apply String.eqb_neq.
Qed.

End PathFurther.

(* ------------------------------------------------------------------------- *)
(** ** Further properties of the scan and of the session *)

Section SessionFurther.
Context {DM : DocumentModel} {UL : UrlLibrary}.

Lemma config_used_lookup (self : WebScraper.t) :
  (if dict_mem (config self) "name"
   then dict_getitem (config self) "name"
   else Ok (PStr "default_config")) = Ok (config_used self).
Proof.
  unfold dict_mem, dict_getitem, config_used.
  destruct (dict_get (config self) "name"); reflexivity.
Qed.

Lemma metadata_loop_in_order (self : WebScraper.t) (url : string) :
  forall (products : list (dict pyval)) (w : world),
  exists out,
    metadata_loop self url products w
    = (Ok out,
       mkWorld (stdout w) (clock w) (ticks w + List.length products))
    /\ List.length out = List.length products
    /\ forall i bare,
         nth_error products i = Some bare ->
         nth_error out i
         = Some (stamp self url (clock w (ticks w + i)) bare).
Proof.
  induction products as [|product products IH]; intros w.
  - exists []. split; [|split].
    + simpl. unfold ret. destruct w; simpl. now rewrite Nat.add_0_r.
    + reflexivity.
    + intros [|i] bare H; discriminate H.
  - destruct (IH (mkWorld (stdout w) (clock w) (S (ticks w))))
      as [out [Hrun [Hlen Hnth]]].
    exists (stamp self url (clock w (ticks w)) product :: out).
    split; [|split].
    + simpl. unfold bind at 1, strftime at 1.
      unfold bind at 1, lift at 1. rewrite config_used_lookup.
      unfold bind at 1. rewrite Hrun. unfold ret. simpl.
      now rewrite Nat.add_succ_r.
    + simpl. now rewrite Hlen.
    + intros [|i] bare H; simpl in *.
      * injection H as <-. now rewrite Nat.add_0_r.
      * rewrite (Hnth i bare H). simpl. now rewrite Nat.add_succ_r.
Qed.

Lemma containers_loop_world
  (self : WebScraper.t) (base_url : string) :
  forall (containers : list Element) (products : list (dict pyval))
         (w w' : world) (r : result (list (dict pyval))),
    containers_loop self base_url containers products w = (r, w') ->
    clock w' = clock w /\ ticks w' = ticks w
    /\ exists lines, stdout w' = stdout w ++ lines.
Proof.
  induction containers as [|container containers IH];
    intros products w w' r.
  - simpl. unfold ret. intros H. injection H as _ <-.
    repeat split. exists []. now rewrite app_nil_r.
  - simpl. unfold bind at 1, lift at 1.
    destruct (dict_getitem (config self) "fields") as [fields|e].
    + unfold bind at 1, lift at 1.
      destruct (py_items fields) as [items|e].
      * unfold bind at 1. rewrite fields_loop_spec. intros H.
        apply IH in H. simpl in H. destruct H as [Hc [Ht [lines Hl]]].
        repeat split; auto.
        exists (field_warnings container base_url items ++ lines).
        now rewrite Hl, app_assoc.
      * intros H. injection H as _ <-. repeat split.
        exists []. now rewrite app_nil_r.
    + intros H. injection H as _ <-. repeat split.
      exists []. now rewrite app_nil_r.
Qed.

Lemma extract_products_world
  (self : WebScraper.t) (soup : Element) (base_url : string)
  (w w' : world) (r : result (list (dict pyval))) :
  _extract_products self soup base_url w = (r, w') ->
  clock w' = clock w /\ ticks w' = ticks w
  /\ exists lines, stdout w' = stdout w ++ lines.
Proof.
  unfold _extract_products. unfold bind at 1, lift at 1.
  destruct (find_all soup (PStr "div") _) as [containers|e].
  - destruct containers as [|c cs].
    + unfold ret. intros H. injection H as _ <-. repeat split.
      exists []. now rewrite app_nil_r.
    + apply containers_loop_world.
  - intros H. injection H as _ <-. repeat split.
    exists []. now rewrite app_nil_r.
Qed.

(** X5. A document in which no [div] of the container class is found gives the
    empty list: nothing is printed, the clock is not read, and the [fields]
    entry of the configuration is not looked at, so this holds whatever it
    is, absent or ill-formed. *)
Theorem scan_without_container_is_empty
  (self : WebScraper.t) (soup : Element) (url : string) (w : world) :
  find_all soup (PStr "div") (Some (container_class_of self)) = Ok [] ->
  _extract_products self soup url w = (Ok [], w)
  /\ forall response,
       response url = Ok soup ->
       scrape_products self response url w = (Ok [], w).
Proof.
  intros Hfind.
  assert (Hscan : _extract_products self soup url w = (Ok [], w)).
  { unfold _extract_products, container_class_of in *.
    unfold bind, lift. now rewrite Hfind. }
  split; [exact Hscan|]. intros response Hresponse.
  unfold scrape_products, try_except. unfold bind at 1, lift at 1.
  rewrite Hresponse. unfold bind at 1. now rewrite Hscan.
Qed.

(** X6. Whatever goes wrong inside [scrape_products] comes out as a plain
    [Exception] whose message is the message of the cause after a fixed
    prefix: the HTTP prefix when the cause is a [RequestException], the
    general one otherwise.  The cause is raised by the request or by the
    scan; attaching the metadata never fails. *)
Theorem scrape_products_failure_is_wrapped
  (self : WebScraper.t) (response : string -> result Element) (url : string)
  (w w' : world) (e : exn) :
  scrape_products self response url w = (Raise e, w') ->
  exists cause,
    (response url = Raise cause
     \/ exists soup,
          response url = Ok soup
          /\ _extract_products self soup url w = (Raise cause, w'))
    /\ e = mkExn PlainException (failure_prefix cause ++ exn_msg cause).
Proof.
  assert (Hhandler :
            forall (cause : exn) (w1 : world),
              match exn_cls cause with
              | RequestException =>
                  lift (A := list (dict pyval))
                    (Raise (mkExn PlainException
                              ("Error en request HTTP: " ++ exn_msg cause)))
              | _ =>
                  lift (Raise (mkExn PlainException
                                 ("Error general en scraping: "
                                    ++ exn_msg cause)))
              end w1
              = (Raise (mkExn PlainException
                          (failure_prefix cause ++ exn_msg cause)), w1)).
  { intros cause w1. unfold failure_prefix, lift.
    destruct (exn_cls cause); reflexivity. }
  unfold scrape_products, try_except.
  unfold bind at 1, lift at 1.
  destruct (response url) as [soup|cause] eqn:Hresponse.
  - unfold bind at 1.
    destruct (_extract_products self soup url w) as [[extracted|cause] w1]
      eqn:Hscan.
    + destruct (metadata_loop_in_order self url extracted w1)
        as [out [Hrun _]].
      rewrite Hrun. discriminate.
    + rewrite Hhandler. intros H. injection H as <- <-.
      exists cause. split; [|reflexivity].
      right. exists soup. split; [reflexivity|exact Hscan].
  - rewrite Hhandler. intros H. injection H as <- _.
    exists cause. split; [now left|reflexivity].
Qed.

(** X7. When the request and the scan succeed, [scrape_products] returns one
    record per scanned record, in the same order: the i-th is the i-th
    scanned record stamped with the URL, the i-th reading of the clock
    taken by the call and the configuration name.  A field whose name is
    not a provenance key keeps the value the scan gave it. *)
Theorem scrape_products_stamps_in_order
  (self : WebScraper.t) (response : string -> result Element) (url : string)
  (soup : Element) (extracted : list (dict pyval)) (w w1 : world) :
  response url = Ok soup ->
  _extract_products self soup url w = (Ok extracted, w1) ->
  exists products,
    scrape_products self response url w
    = (Ok products,
       mkWorld (stdout w1) (clock w) (ticks w + List.length extracted))
    /\ List.length products = List.length extracted
    /\ forall i bare,
         nth_error extracted i = Some bare ->
         nth_error products i
         = Some (stamp self url (clock w (ticks w + i)) bare)
         /\ forall now k,
              ~ In k provenance_keys ->
              dict_get (stamp self url now bare) k = dict_get bare k.
Proof.
  intros Hresponse Hscan.
  destruct (extract_products_world _ _ _ _ _ _ Hscan) as [Hclock [Hticks _]].
  destruct (metadata_loop_in_order self url extracted w1)
    as [out [Hrun [Hlen Hnth]]].
  exists out. split; [|split].
  - unfold scrape_products, try_except. unfold bind at 1, lift at 1.
    rewrite Hresponse. unfold bind at 1. rewrite Hscan, Hrun.
    now rewrite Hclock, Hticks.
  - exact Hlen.
  - intros i bare Hbare. split.
    + rewrite (Hnth i bare Hbare). now rewrite Hclock, Hticks.
    + intros now k Hk. unfold stamp, provenance_keys in *. simpl in Hk.
      rewrite dict_get_set_other by (intros <-; tauto).
      rewrite dict_get_set_other by (intros <-; tauto).
      rewrite dict_get_set_other by (intros <-; tauto).
      reflexivity.
Qed.

(** X8. Construction accepts a [fields] entry that is not a mapping, but every
    scan of a document with at least one container then raises
    [AttributeError], which [scrape_products] reports as a general
    failure. *)
Theorem non_mapping_fields_fail_at_scan
  (config : dict pyval) (fields : pyval) :
  dict_mem config "container_class" = true ->
  dict_get config "fields" = Some fields ->
  (forall d, fields <> PDict d) ->
  __init__ config = Ok (WebScraper.mk config)
  /\ forall soup url container containers w,
       find_all soup (PStr "div")
         (Some (container_class_of (WebScraper.mk config)))
       = Ok (container :: containers) ->
       _extract_products (WebScraper.mk config) soup url w
       = (Raise (mkExn AttributeError
                   ("'" ++ type_name fields
                      ++ "' object has no attribute 'items'")), w)
       /\ forall response,
            response url = Ok soup ->
            scrape_products (WebScraper.mk config) response url w
            = (Raise (mkExn PlainException
                        ("Error general en scraping: '" ++ type_name fields
                           ++ "' object has no attribute 'items'")), w).
Proof.
  intros Hcc Hfields Hkind. split.
  - unfold __init__, _validate_config.
    rewrite required_keys_loop_present; [reflexivity|].
    intros key [<-|[<-|[]]]; [exact Hcc|].
    unfold dict_mem. now rewrite Hfields.
  - intros soup url container containers w Hfind.
    assert (Hscan : _extract_products (WebScraper.mk config) soup url w
                    = (Raise (mkExn AttributeError
                                ("'" ++ type_name fields
                                   ++ "' object has no attribute 'items'")),
                       w)).
    { unfold _extract_products, container_class_of in *.
      unfold bind at 1, lift at 1. cbn [WebScraper.config] in *.
      rewrite Hfind.
      simpl. unfold bind at 1, lift at 1, dict_getitem. rewrite Hfields.
      unfold bind at 1, lift at 1.
      destruct fields; try reflexivity. exfalso. now apply (Hkind d). }
    split; [exact Hscan|]. intros response Hresponse.
    unfold scrape_products, try_except. unfold bind at 1, lift at 1.
    rewrite Hresponse. unfold bind at 1. rewrite Hscan. reflexivity.
Qed.

Lemma field_warnings_count
  (container : Element) (base_url : string) (fields : dict pyval) :
  List.length (field_warnings container base_url fields)
  = List.length
      (filter (fun pair =>
                 match _extract_field_value (fst pair) (snd (snd pair))
                         base_url with
                 | Ok _ => false
                 | Raise _ => true
                 end)
              (map (fun item => (container, item)) fields)).
Proof.
  induction fields as [|[name fc] fields IH]; [reflexivity|].
  unfold field_warnings in *. cbn [flat_map map filter fst snd].
  rewrite length_app, IH.
  destruct (_extract_field_value container fc base_url); reflexivity.
Qed.

(** X9. The scan prints one line for each extraction that raised, container by
    container and field by field, also for the containers whose record is
    then left out; it prints nothing else and does not read the clock. *)
Theorem scan_prints_one_warning_per_failure
  (self : WebScraper.t) (soup : Element) (base_url : string)
  (fields : dict pyval) (containers : list Element) (w : world) :
  dict_get (config self) "fields" = Some (PDict fields) ->
  find_all soup (PStr "div") (Some (container_class_of self)) = Ok containers ->
  exists products w',
    _extract_products self soup base_url w = (Ok products, w')
    /\ stdout w'
       = stdout w
           ++ flat_map (fun c => field_warnings c base_url fields) containers
    /\ clock w' = clock w /\ ticks w' = ticks w
    /\ List.length (flat_map (fun c => field_warnings c base_url fields)
                      containers)
       = List.length
           (filter (fun pair =>
                      match _extract_field_value (fst pair) (snd (snd pair))
                              base_url with
                      | Ok _ => false
                      | Raise _ => true
                      end)
                   (list_prod containers fields)).
Proof.
  intros Hfields Hfind. eexists. eexists.
  split; [apply (extract_products_spec _ _ _ _ _ _ Hfields Hfind)|].
  split; [reflexivity|]. split; [reflexivity|]. split; [reflexivity|].
  clear. induction containers as [|c cs IH]; [reflexivity|].
  simpl. rewrite filter_app, !length_app, IH. f_equal.
  apply field_warnings_count.
Qed.

(** X10. [test_config_on_url] never returns: the report it builds reads
    [self.config_path], which the object does not have, and so does the
    report of its handler.  Whatever the scrape does, the call raises
    [AttributeError]. *)
Theorem test_config_on_url_always_raises
  (self : WebScraper.t) (response : string -> result Element)
  (url : string) (max_products : Z) (w : world) :
  exists w',
    test_config_on_url self response url max_products w
    = (Raise (mkExn AttributeError
                "'WebScraper' object has no attribute 'config_path'"), w').
Proof.
  unfold test_config_on_url, try_except. unfold bind at 1.
  destruct (scrape_products self response url w) as [[products|e] w1].
  - eexists. reflexivity.
  - eexists. reflexivity.
Qed.

End SessionFurther.

(** [_load_config] never returns a configuration: it reads
    [self.config_path] before opening anything, and the [AttributeError]
    comes out wrapped in the message of the method, whatever the files
    hold. *)
Theorem load_config_always_raises
  (self : WebScraper.t) (open_json : pyval -> result pyval) :
  _load_config self open_json
  = Raise (mkExn PlainException
             "Error cargando configuración: 'WebScraper' object has no attribute 'config_path'").
Proof. reflexivity. Qed.

(* ------------------------------------------------------------------------- *)
(** ** The URL reader *)

Section ReaderProperties.
Context {TL : TextLibrary} {UP : UrlParser}.
Import URLReader.

Lemma raw_urls_loop_spec (lines : list string) :
  forall (line_num : nat) (raw_urls : list (nat * string)),
    raw_urls_loop line_num lines raw_urls
    = raw_urls
        ++ filter (fun entry => is_entry (snd entry))
             (combine (seq line_num (List.length lines)) (map strip lines)).
Proof.
  induction lines as [|line lines IH]; intros line_num raw_urls.
  - simpl. now rewrite app_nil_r.
  - simpl. unfold is_entry at 1. simpl.
    destruct (String.eqb (strip line) "" || String.prefix "#" (strip line));
      simpl; rewrite IH; [reflexivity|].
    now rewrite <- app_assoc.
Qed.

Lemma valid_urls_loop_spec (raw_urls : list (nat * string)) :
  forall (valid_urls : list string) (w : world),
    valid_urls_loop raw_urls valid_urls w
    = (Ok (valid_urls
             ++ map snd
                  (filter (fun entry => _is_valid_url (snd entry)) raw_urls)),
       mkWorld
         (stdout w
            ++ map invalid_url_warning
                 (filter (fun entry => negb (_is_valid_url (snd entry)))
                    raw_urls))
         (clock w) (ticks w)).
Proof.
  induction raw_urls as [|[line_num url] raw_urls IH]; intros valid_urls w.
  - simpl. unfold ret. now rewrite world_eta, app_nil_r.
  - simpl. destruct (_is_valid_url url); simpl.
    + rewrite IH. now rewrite <- app_assoc.
    + unfold bind, print. rewrite IH. simpl. now rewrite <- app_assoc.
Qed.

Lemma numbered_items {A} (l : list A) :
  forall start : nat, map snd (combine (seq start (List.length l)) l) = l.
Proof.
  induction l as [|x l IH]; intros start; [reflexivity|].
  simpl. now rewrite IH.
Qed.

Lemma filter_filter_snd {A} (f g : A -> bool) (l : list (nat * A)) :
  map snd (filter (fun entry => g (snd entry))
             (filter (fun entry => f (snd entry)) l))
  = filter g (filter f (map snd l)).
Proof.
  induction l as [|[n x] l IH]; [reflexivity|].
  simpl. destruct (f x); simpl; [|exact IH].
  destruct (g x); simpl; now rewrite IH.
Qed.

(** X11. When the file is there and can be read, [load_urls] returns, in the
    order of the file, the stripped lines that are not empty, do not start
    with [#] and parse with a scheme and a host; it stores the same list
    in the object.  Repeated lines are kept.  For each other candidate it
    prints one line, with the number of the line in the file. *)
Theorem load_urls_keeps_the_valid_entries
  (self : URLReader.t) (files : file_system) (lines : list string)
  (w : world) :
  path_exists files (file_path self) = true ->
  readlines files (file_path self) = Ok lines ->
  exists w',
    load_urls self files w
    = (Ok (URLReader.mk (file_path self)
             (filter _is_valid_url (filter is_entry (map strip lines))),
           filter _is_valid_url (filter is_entry (map strip lines))),
       w')
    /\ stdout w'
       = stdout w
           ++ map invalid_url_warning
                (filter (fun entry => negb (_is_valid_url (snd entry)))
                   (filter (fun entry => is_entry (snd entry))
                      (numbered (map strip lines))))
    /\ clock w' = clock w /\ ticks w' = ticks w.
Proof.
  intros Hexists Hread. unfold load_urls. rewrite Hexists.
  change (negb true) with false. cbv iota.
  unfold try_except, bind, lift, ret. rewrite Hread.
  rewrite raw_urls_loop_spec, valid_urls_loop_spec. simpl app.
  assert (Hlist :
            map snd
              (filter (fun entry => _is_valid_url (snd entry))
                 (filter (fun entry => is_entry (snd entry))
                    (combine (seq 1 (List.length lines)) (map strip lines))))
            = filter _is_valid_url (filter is_entry (map strip lines))).
  { rewrite filter_filter_snd. rewrite <- (length_map strip lines).
    now rewrite numbered_items. }
  rewrite Hlist. eexists. split; [reflexivity|].
  simpl. unfold numbered. rewrite length_map. repeat split.
Qed.

(** X12. [add_url] answers [True] exactly when the URL is valid and not yet in
    the list, and then puts it last; otherwise the object is unchanged.
    A list without repetition stays so, and adding the same URL again
    changes nothing. *)
Theorem add_url_adds_once (self : URLReader.t) (url : string) :
  (snd (add_url self url) = true
   <-> _is_valid_url url = true /\ ~ In url (urls self))
  /\ urls (fst (add_url self url))
     = (if snd (add_url self url) then urls self ++ [url] else urls self)
  /\ file_path (fst (add_url self url)) = file_path self
  /\ (NoDup (urls self) -> NoDup (urls (fst (add_url self url))))
  /\ add_url (fst (add_url self url)) url = (fst (add_url self url), false).
Proof.
  assert (Hmem : forall l, existsb (String.eqb url) l = true <-> In url l).
  { intros l. rewrite existsb_exists. split.
    - intros [x [Hin Heq]]. apply String.eqb_eq in Heq. now subst.
    - intros Hin. exists url. split; [exact Hin|apply String.eqb_refl]. }
  unfold add_url.
  destruct (_is_valid_url url) eqn:Hvalid.
  - destruct (existsb (String.eqb url) (urls self)) eqn:Hin; simpl.
    + rewrite Hin. simpl. apply Hmem in Hin.
      repeat split; auto; try discriminate.
      intros [_ Hnot]. contradiction.
    + assert (Hnot : ~ In url (urls self)).
      { intros H. apply Hmem in H. congruence. }
      assert (Hnow : existsb (String.eqb url) (urls self ++ [url]) = true).
      { apply Hmem. apply in_or_app. right. now left. }
      rewrite Hnow. simpl. repeat split; auto.
      intros Hnd. apply NoDup_app; [exact Hnd|repeat constructor; intros []|].
      intros x Hx [<-|[]]. contradiction.
  - simpl. repeat split; auto; try discriminate.
    intros [H _]. discriminate H.
Qed.

Lemma domain_stats_loop_get (domain : string) (urls : list string) :
  forall domain_count : dict Z,
    dict_get (domain_stats_loop urls domain_count) domain
    = match count_domain domain urls with
      | O => dict_get domain_count domain
      | S n =>
          Some (match dict_get domain_count domain with
                | Some k => k
                | None => 0
                end + Z.of_nat (S n))%Z
      end.
Proof.
  unfold count_domain.
  induction urls as [|url urls IH]; intros domain_count; [reflexivity|].
  simpl. destruct (urlparse url) as [result|e]; [|apply IH].
  rewrite IH. destruct (String.eqb (url_netloc result) domain) eqn:E.
  - apply String.eqb_eq in E. subst domain. simpl List.length.
    rewrite dict_get_set_same.
    destruct (List.length (filter _ urls)); f_equal; lia.
  - apply String.eqb_neq in E. rewrite dict_get_set_other by exact E.
    reflexivity.
Qed.

Lemma domain_stats_loop_NoDup (urls : list string) :
  forall domain_count : dict Z,
    NoDup (dict_keys domain_count) ->
    NoDup (dict_keys (domain_stats_loop urls domain_count)).
Proof.
  induction urls as [|url urls IH]; intros domain_count Hnd; [exact Hnd|].
  simpl. destruct (urlparse url); [|now apply IH].
  apply IH. now apply dict_set_NoDup.
Qed.

(** X13. [get_domain_stats] maps each host to the number of URLs of the list
    that parse with that host, and holds no entry for a host no URL has;
    a URL that does not parse is counted nowhere.  Each host appears
    once. *)
Theorem get_domain_stats_counts_hosts (self : URLReader.t) (domain : string) :
  dict_get (get_domain_stats self) domain
  = match count_domain domain (urls self) with
    | O => None
    | S n => Some (Z.of_nat (S n))
    end
  /\ NoDup (dict_keys (get_domain_stats self)).
Proof.
  unfold get_domain_stats. split.
  - rewrite domain_stats_loop_get. simpl dict_get.
    destruct (count_domain domain (urls self)); reflexivity.
  - apply domain_stats_loop_NoDup. constructor.
Qed.

End ReaderProperties.

(* ------------------------------------------------------------------------- *)
(** ** The batch over the URLs *)

Section BatchProperties.
Context {DM : DocumentModel} {UL : UrlLibrary}.

Lemma scraped_record_shape
  (self : WebScraper.t) (response : string -> result Element) (url : string)
  (w w' : world) (products : list (dict pyval)) (product : dict pyval) :
  scrape_products self response url w = (Ok products, w') ->
  In product products ->
  exists fields container now,
    dict_get (config self) "fields" = Some (PDict fields)
    /\ product = stamp self url now (assign_fields container url fields []).
Proof.
  intros Hscrape Hin.
  destruct (scrape_products_inversion _ _ _ _ _ _ Hscrape)
    as [soup [extracted [w1 [_ [Hextract Hmeta]]]]].
  destruct (metadata_loop_records _ _ _ _ _ _ _ Hmeta Hin)
    as [bare [now [Hbare ->]]].
  destruct (extract_products_records _ _ _ _ _ _ _ Hextract Hbare)
    as [fields [container [Hfields ->]]].
  exists fields, container, now. split; [exact Hfields|reflexivity].
Qed.

(** X14. Every record the loop of [main] gathers beyond those it started with
    was returned for one of the URLs of the list: it carries that URL as
    [_source_url], and its keys are the configured field names and the
    three provenance keys. *)
Theorem batch_records_come_from_the_urls
  (scraper : WebScraper.t) (response : string -> result Element)
  (total : nat) (urls : list string) :
  forall (i : nat) (b : batch) (record : dict pyval),
    In record (all_products (urls_loop scraper response total i urls b)) ->
    In record (all_products b)
    \/ exists url fields,
         In url urls
         /\ dict_get (config scraper) "fields" = Some (PDict fields)
         /\ dict_get record "_source_url" = Some (PStr url)
         /\ forall k,
              In k (dict_keys record)
              <-> In k (dict_keys fields) \/ In k provenance_keys.
Proof.
  induction urls as [|url urls IH]; intros i b record Hin.
  - now left.
  - simpl in Hin.
    destruct (scrape_products scraper response url (batch_world b))
      as [[products|e] w] eqn:Hscrape.
    + destruct products as [|p ps].
      * apply IH in Hin. simpl in Hin.
        destruct Hin as [Hin|[u [fields [Hu H]]]]; [now left|].
        right. exists u, fields. split; [now right|exact H].
      * apply IH in Hin. simpl all_products in Hin.
        destruct Hin as [Hin|[u [fields [Hu H]]]].
        -- apply in_app_or in Hin. destruct Hin as [Hin|Hin]; [now left|].
           right.
           destruct (scraped_record_shape _ _ _ _ _ _ _ Hscrape Hin)
             as [fields [container [now [Hfields ->]]]].
           exists url, fields. split; [now left|]. split; [exact Hfields|].
           split.
           ++ unfold stamp.
              rewrite !dict_get_set_other by discriminate.
              apply dict_get_set_same.
           ++ intros k. unfold stamp.
              rewrite !dict_keys_set, assign_fields_keys.
              unfold provenance_keys. simpl. intuition congruence.
        -- right. exists u, fields. split; [now right|exact H].
    + apply IH in Hin. simpl in Hin.
      destruct Hin as [Hin|[u [fields [Hu H]]]]; [now left|].
      right. exists u, fields. split; [now right|exact H].
Qed.

(** X15. The loop of [main] goes through every URL, whatever each scrape does:
    it logs two records per URL, keeps the records gathered before, and
    counts as successful at most one scrape per URL, each of which added
    at least one record. *)
Theorem batch_processes_every_url
  (scraper : WebScraper.t) (response : string -> result Element)
  (total : nat) (urls : list string) :
  forall (i : nat) (b : batch),
    List.length (logged (urls_loop scraper response total i urls b))
    = List.length (logged b) + 2 * List.length urls
    /\ successful_scrapes b
       <= successful_scrapes (urls_loop scraper response total i urls b)
       <= successful_scrapes b + List.length urls
    /\ (exists gathered,
          all_products (urls_loop scraper response total i urls b)
          = all_products b ++ gathered
          /\ successful_scrapes (urls_loop scraper response total i urls b)
             - successful_scrapes b
             <= List.length gathered).
Proof.
  induction urls as [|url urls IH]; intros i b.
  - simpl. repeat split; try lia. exists []. rewrite app_nil_r.
    split; [reflexivity|simpl; lia].
  - simpl.
    destruct (scrape_products scraper response url (batch_world b))
      as [[products|e] w].
    + destruct products as [|p ps].
      * match goal with
        | |- context [urls_loop _ _ _ _ _ ?b'] =>
            destruct (IH (S i) b') as [Hlog [Hcount [gathered [Hall Hmin]]]]
        end.
        simpl in *. rewrite !length_app in Hlog. simpl in Hlog.
        repeat split; try lia. exists gathered. split; [exact Hall|lia].
      * match goal with
        | |- context [urls_loop _ _ _ _ _ ?b'] =>
            destruct (IH (S i) b') as [Hlog [Hcount [gathered [Hall Hmin]]]]
        end.
        simpl in *. rewrite !length_app in Hlog. simpl in Hlog.
        repeat split; try lia.
        exists ((p :: ps) ++ gathered). split.
        -- rewrite Hall. now rewrite <- app_assoc.
        -- rewrite length_app. simpl. lia.
    + match goal with
      | |- context [urls_loop _ _ _ _ _ ?b'] =>
          destruct (IH (S i) b') as [Hlog [Hcount [gathered [Hall Hmin]]]]
      end.
      simpl in *. rewrite !length_app in Hlog. simpl in Hlog.
      repeat split; try lia. exists gathered. split; [exact Hall|lia].
Qed.

End BatchProperties.

(* ------------------------------------------------------------------------- *)
(** ** The further properties at the sample pages and files *)

Section FurtherRuns.
Import Sample Shop Files.

Example load_sample_urls :
  URLReader.load_urls (URLReader.__init__ "configs/urls.txt") disk start
  = (Ok (URLReader.mk "configs/urls.txt"
           ["https://shop.example/cat/"; "https://shop.example/sale";
            "https://cdn.example/x"],
         ["https://shop.example/cat/"; "https://shop.example/sale";
          "https://cdn.example/x"]),
     mkWorld ["Advertencia: URL inválida en línea 4: shop.example/other"]
       (clock start) 0).
Proof. vm_compute. reflexivity. Qed.

Example sample_domain_stats :
  URLReader.get_domain_stats
    (URLReader.mk "configs/urls.txt"
       ["https://shop.example/cat/"; "https://shop.example/sale";
        "https://cdn.example/x"])
  = [("shop.example", 2%Z); ("cdn.example", 1%Z)].
Proof. vm_compute. reflexivity. Qed.

Example sample_batch :
  let b := urls_loop (DM := document_model) (WebScraper.mk card_config)
             sample_response 3 1
             ["https://shop.example/down"; base_url;
              "https://shop.example/none"]
             (mkBatch [] 0 start []) in
  all_products b
  = [[("title", PStr "A");
      ("link", PStr "https://shop.example/p/1");
      ("_source_url", PStr base_url);
      ("_scraped_at", PStr "2024-05-01 12:00:00");
      ("_config_used", PStr "default_config")]]
  /\ successful_scrapes b = 1
  /\ logged b
     = [(INFO, "Procesando URL 1/3: https://shop.example/down");
        (ERROR, "Error procesando URL 1: Error en request HTTP: 503 Server Error");
        (INFO, "Procesando URL 2/3: https://shop.example/cat/");
        (INFO, "Extraídos 1 productos de la URL 2");
        (INFO, "Procesando URL 3/3: https://shop.example/none");
        (WARNING, "No se encontraron productos en la URL 3")].
Proof. vm_compute. repeat split. Qed.


Lemma find_all_reads_index_only_on_a_match_witness :
  path_step (DM := document_model) empty_card
    (PDict [("type", PStr "find_all"); ("tag", PStr "p");
            ("index", PStr "last")])
  = Ok None.
Proof.
  destruct (find_all_reads_index_only_on_a_match
              (DM := document_model) empty_card
              [("type", PStr "find_all"); ("tag", PStr "p");
               ("index", PStr "last")]
              (PStr "p") PNone (PStr "last") [])
    as [Hnone _];
    [reflexivity | reflexivity | reflexivity | reflexivity | reflexivity |].
  apply Hnone. reflexivity.
Defined.

Lemma text_mode_returns_the_text_witness :
  _extract_field_value (DM := document_model) full_card
    (PDict [("path", PList [find_step "h3"]); ("extract", PStr "text")])
    base_url
  = Ok (PStr "A").
Proof.
  destruct (text_mode_returns_the_text
              (DM := document_model) full_card (Tag "h3" [] [Text " A "])
              (PDict [("path", PList [find_step "h3"]);
                      ("extract", PStr "text")])
              (PList [find_step "h3"]) [find_step "h3"] "A" base_url)
    as [Hvalue _];
    [reflexivity | reflexivity | reflexivity | reflexivity | reflexivity |].
  exact Hvalue.
Defined.

Lemma scan_without_container_is_empty_witness :
  _extract_products (DM := document_model) (WebScraper.mk [])
    (Tag "[document]" [] [Tag "p" [] []]) base_url start
  = (Ok [], start).
Proof.
  destruct (scan_without_container_is_empty
              (DM := document_model) (WebScraper.mk [])
              (Tag "[document]" [] [Tag "p" [] []]) base_url start)
    as [Hscan _]; [reflexivity|].
  exact Hscan.
Defined.

Lemma scrape_products_failure_is_wrapped_witness :
  exists cause,
    (sample_response "https://shop.example/down" = Raise cause
     \/ exists soup,
          sample_response "https://shop.example/down" = Ok soup
          /\ _extract_products (DM := document_model)
               (WebScraper.mk card_config) soup
               "https://shop.example/down" start
             = (Raise cause, start))
    /\ mkExn PlainException "Error en request HTTP: 503 Server Error"
       = mkExn PlainException (failure_prefix cause ++ exn_msg cause).
Proof.
  apply (scrape_products_failure_is_wrapped
           (DM := document_model) (WebScraper.mk card_config)
           sample_response "https://shop.example/down" start start
           (mkExn PlainException "Error en request HTTP: 503 Server Error")).
  reflexivity.
Defined.

Lemma scrape_products_stamps_in_order_witness :
  exists products,
    scrape_products (DM := document_model) (WebScraper.mk card_config)
      (online page) base_url start
    = (Ok products, mkWorld [] (clock start) 1)
    /\ List.length products = 1.
Proof.
  destruct (scrape_products_stamps_in_order
              (DM := document_model) (WebScraper.mk card_config)
              (online page) base_url page
              [[("title", PStr "A");
                ("link", PStr "https://shop.example/p/1")]]
              start start)
    as [products [Hrun [Hlen _]]].
  - reflexivity.
  - vm_compute. reflexivity.
  - exists products. split; [exact Hrun|exact Hlen].
Defined.

Lemma non_mapping_fields_fail_at_scan_witness :
  __init__ [("container_class", PStr "card"); ("fields", PList [])]
  = Ok (WebScraper.mk
          [("container_class", PStr "card"); ("fields", PList [])]).
Proof.
  destruct (non_mapping_fields_fail_at_scan
              (DM := document_model)
              [("container_class", PStr "card"); ("fields", PList [])]
              (PList []))
    as [Hinit _].
  - reflexivity.
  - reflexivity.
  - discriminate.
  - exact Hinit.
Defined.

Lemma scan_prints_one_warning_per_failure_witness :
  exists products w',
    _extract_products (DM := document_model) (WebScraper.mk faulty_config)
      paragraphs_page base_url start
    = (Ok products, w')
    /\ List.length (stdout w') = 5.
Proof.
  destruct (scan_prints_one_warning_per_failure
              (DM := document_model) (WebScraper.mk faulty_config)
              paragraphs_page base_url faulty_fields
              [two_paragraphs; empty_card] start)
    as [products [w' [Hrun [Hout _]]]].
  - reflexivity.
  - reflexivity.
  - exists products, w'. split; [exact Hrun|].
    rewrite Hout. reflexivity.
Defined.

Lemma load_urls_keeps_the_valid_entries_witness :
  exists w',
    URLReader.load_urls (URLReader.__init__ "configs/urls.txt") disk start
    = (Ok (URLReader.mk "configs/urls.txt"
             (filter URLReader._is_valid_url
                (filter is_entry (map strip url_lines))),
           filter URLReader._is_valid_url
             (filter is_entry (map strip url_lines))),
       w')
    /\ clock w' = clock start.
Proof.
  destruct (load_urls_keeps_the_valid_entries
              (URLReader.__init__ "configs/urls.txt") disk url_lines start)
    as [w' [Hrun [_ [Hclock _]]]].
  - reflexivity.
  - reflexivity.
  - exists w'. split; [exact Hrun|exact Hclock].
Defined.

Lemma batch_records_come_from_the_urls_witness :
  In [("title", PStr "A");
      ("link", PStr "https://shop.example/p/1");
      ("_source_url", PStr base_url);
      ("_scraped_at", PStr "2024-05-01 12:00:00");
      ("_config_used", PStr "default_config")]
     []
  \/ exists url fields,
       In url ["https://shop.example/down"; base_url]
       /\ dict_get card_config "fields" = Some (PDict fields)
       /\ dict_get
            [("title", PStr "A");
             ("link", PStr "https://shop.example/p/1");
             ("_source_url", PStr base_url);
             ("_scraped_at", PStr "2024-05-01 12:00:00");
             ("_config_used", PStr "default_config")]
            "_source_url" = Some (PStr url)
       /\ forall k,
            In k ["title"; "link"; "_source_url"; "_scraped_at";
                  "_config_used"]
            <-> In k (dict_keys fields) \/ In k provenance_keys.
Proof.
  apply (batch_records_come_from_the_urls
           (DM := document_model) (WebScraper.mk card_config)
           sample_response 2 ["https://shop.example/down"; base_url]
           1 (mkBatch [] 0 start [])).
  vm_compute. left. reflexivity.
Defined.

End FurtherRuns.

(* ------------------------------------------------------------------------- *)
(** ** Comparing hosts *)

Section ManagerProperties.
Context {UP : UrlParser}.
Import URLManager.

(** X16. [is_same_domain] is truthy exactly when both URLs parse with the
    same host and that host is not empty, and its truth value does not
    depend on the order of the two URLs.  It is a boolean only when both
    hosts are there and not empty: otherwise it is the empty string or
    [None]. *)
Theorem is_same_domain_truth (url1 url2 : string) :
  (truthy (is_same_domain url1 url2) = true
   <-> exists host,
         host <> "" /\ extract_domain url1 = Some host
         /\ extract_domain url2 = Some host)
  /\ truthy (is_same_domain url1 url2) = truthy (is_same_domain url2 url1)
  /\ ((exists b, is_same_domain url1 url2 = PBool b)
      <-> exists host1 host2,
            host1 <> "" /\ host2 <> ""
            /\ extract_domain url1 = Some host1
            /\ extract_domain url2 = Some host2)
  /\ (is_same_domain url1 url2 = PStr ""
      \/ is_same_domain url1 url2 = PNone
      \/ exists b, is_same_domain url1 url2 = PBool b).
Proof.
  unfold is_same_domain.
  assert (Hsym : forall a b : option string,
            truthy match a with
                   | None => PNone
                   | Some d1 =>
                       if String.eqb d1 "" then PStr d1
                       else match b with
                            | None => PNone
                            | Some d2 =>
                                if String.eqb d2 "" then PStr d2
                                else PBool (String.eqb d1 d2)
                            end
                   end
            = match a, b with
              | Some d1, Some d2 =>
                  negb (String.eqb d1 "") && negb (String.eqb d2 "")
                  && String.eqb d1 d2
              | _, _ => false
              end).
  { intros [d1|] [d2|]; simpl; auto.
    - destruct (String.eqb_spec d1 ""); subst; simpl; auto.
      destruct (String.eqb_spec d2 ""); subst; simpl; auto.
    - destruct (String.eqb_spec d1 ""); subst; simpl; auto. }
  split; [|split; [|split]].
  - rewrite Hsym.
    destruct (extract_domain url1) as [d1|], (extract_domain url2) as [d2|];
      try (split; [discriminate|intros [h [_ [H1 H2]]]; discriminate]).
    rewrite !andb_true_iff, !negb_true_iff. split.
    + intros [[Hd1 _] Heq]. apply String.eqb_eq in Heq. subst d2.
      apply String.eqb_neq in Hd1. eauto.
    + intros [h [Hne [H1 H2]]]. injection H1 as ->. injection H2 as ->.
      apply String.eqb_neq in Hne. rewrite Hne, String.eqb_refl. auto.
  - rewrite !Hsym.
    destruct (extract_domain url1) as [d1|], (extract_domain url2) as [d2|];
      auto.
    rewrite (String.eqb_sym d1 d2).
    destruct (String.eqb d1 ""), (String.eqb d2 ""); reflexivity.
  - destruct (extract_domain url1) as [d1|], (extract_domain url2) as [d2|].
    + destruct (String.eqb_spec d1 "") as [->|H1];
        [|destruct (String.eqb_spec d2 "") as [->|H2]].
      * split; [intros [b Hb]; discriminate|].
        intros [h1 [h2 [Hn [_ [E _]]]]]. injection E as <-. congruence.
      * split; [intros [b Hb]; discriminate|].
        intros [h1 [h2 [_ [Hn [_ E]]]]]. injection E as <-. congruence.
      * split; [intros _; exists d1, d2; auto|eauto].
    + destruct (String.eqb_spec d1 "") as [->|H1];
        (split; [intros [b Hb]; discriminate|]);
        intros [h1 [h2 [_ [_ [_ E]]]]]; discriminate.
    + split; [intros [b Hb]; discriminate|].
      intros [h1 [h2 [_ [_ [E _]]]]]. discriminate.
    + split; [intros [b Hb]; discriminate|].
      intros [h1 [h2 [_ [_ [E _]]]]]. discriminate.
  - destruct (extract_domain url1) as [d1|], (extract_domain url2) as [d2|];
      auto.
    + destruct (String.eqb_spec d1 "") as [->|H1]; auto.
      destruct (String.eqb_spec d2 "") as [->|H2]; eauto.
    + destruct (String.eqb_spec d1 "") as [->|H1]; auto.
Qed.

End ManagerProperties.

Section ManagerRuns.
Import Files.

Example hosts_compared :
  URLManager.is_same_domain "https://shop.example/a" "https://shop.example/b"
  = PBool true
  /\ URLManager.is_same_domain "https://shop.example/a" "https://cdn.example/"
     = PBool false
  /\ URLManager.is_same_domain "shop.example/a" "https://shop.example/b"
     = PStr "".
Proof. vm_compute. repeat split. Qed.

End ManagerRuns.
